(** * go-webservice: the request-builder chain of the HTTP client

    A shallow embedding of [request.go], the client file (options, [Client],
    request options and factories) and the helpers [combineURL] and
    [userAgent], followed by the properties the specification states about
    them.

    Go values are embedded as follows.
    - [string] and [[]byte] are byte sequences: Rocq [string].
    - [http.Header] is a Go map, that is a reference: a header bag is a
      location in a store of maps ([heap]), [None] being the nil map.  Two
      builders holding the same location share their headers.
    - functions with effects (allocation and update of header maps, calls
      through the transport, closing a body, reading the clock) are state
      transformers over [World] that may panic.
    - a Go result [(value, err)] is a pair whose error component is an
      [option]; [None] is the nil error. *)

From Stdlib Require Import ZArith Ascii String DecimalString.
From stdpp Require Import base option list gmap strings.

Local Open Scope Z_scope.

(** ** Strings, as the [strings] package sees them *)

(** [s[i:]], for [i <= len(s)] (beyond that Go panics; every use below is
    guarded). *)
Definition slice_from (i : nat) (s : string) : string :=
  String.substring i (String.length s - i) s.

(** [s[:j]]. *)
Definition slice_to (j : nat) (s : string) : string :=
  String.substring 0 j s.

(** [strings.HasPrefix]. *)
Definition HasPrefix (s prefix : string) : bool :=
  (String.length prefix <=? String.length s)%nat
  && String.eqb (slice_to (String.length prefix) s) prefix.

(** [strings.HasSuffix]. *)
Definition HasSuffix (s suffix : string) : bool :=
  (String.length suffix <=? String.length s)%nat
  && String.eqb (slice_from (String.length s - String.length suffix) s) suffix.

(** [combineURL] of the helpers file. *)
Definition combineURL (base endpoint : string) : string :=
  if HasSuffix base "/" then
    if HasPrefix endpoint "/" then base +:+ slice_from 1 endpoint
    else base +:+ endpoint
  else if HasPrefix endpoint "/" then base +:+ endpoint
  else base +:+ "/" +:+ endpoint.

(** The words of the join rule, independent of the slicing above. *)
Fixpoint last_byte (s : string) : option ascii :=
  match s with
  | EmptyString => None
  | String c EmptyString => Some c
  | String _ s' => last_byte s'
  end.

Definition first_byte (s : string) : option ascii :=
  match s with
  | EmptyString => None
  | String c _ => Some c
  end.

Definition ends_with_slash (s : string) : bool :=
  bool_decide (last_byte s = Some "/"%char).

Definition starts_with_slash (s : string) : bool :=
  bool_decide (first_byte s = Some "/"%char).

Definition drop_first (s : string) : string :=
  match s with
  | EmptyString => EmptyString
  | String _ s' => s'
  end.

Fixpoint drop_last (s : string) : string :=
  match s with
  | EmptyString => EmptyString
  | String _ EmptyString => EmptyString
  | String c s' => String c (drop_last s')
  end.

(** [s] without one trailing (leading) separator, when it has one. *)
Definition chop_trailing_slash (s : string) : string :=
  if ends_with_slash s then drop_last s else s.

Definition chop_leading_slash (s : string) : string :=
  if starts_with_slash s then drop_first s else s.

(** ** Header keys: [textproto.CanonicalMIMEHeaderKey]

    The canonical form of a key made of token bytes has its first letter
    and every letter after a dash in upper case and the others in lower
    case; a key holding any other byte is returned as it is. *)

Definition byte_between (lo hi : nat) (c : ascii) : bool :=
  (lo <=? nat_of_ascii c)%nat && (nat_of_ascii c <=? hi)%nat.

Definition is_lower : ascii -> bool := byte_between 97 122.
Definition is_upper : ascii -> bool := byte_between 65 90.
Definition is_digit : ascii -> bool := byte_between 48 57.

Definition validHeaderFieldByte (c : ascii) : bool :=
  is_lower c || is_upper c || is_digit c
  || existsb (Ascii.eqb c) (list_ascii_of_string "!#$%&'*+-.^_`|~").

Definition toLower : nat := 32.

Fixpoint canonicalize (upper : bool) (a : string) : string :=
  match a with
  | EmptyString => EmptyString
  | String c a' =>
      let c' :=
        if upper && is_lower c then ascii_of_nat (nat_of_ascii c - toLower)
        else if negb upper && is_upper c then ascii_of_nat (nat_of_ascii c + toLower)
        else c in
      String c' (canonicalize (Ascii.eqb c' "-") a')
  end.

Definition CanonicalMIMEHeaderKey (s : string) : string :=
  if forallb validHeaderFieldByte (list_ascii_of_string s)
  then canonicalize true s
  else s.

(** ** Errors, contexts and the values of [net/http] *)

(** [errors.New(msg)] and [fmt.Errorf(prefix + "%w", err)]. *)
Inductive GoError : Type :=
  | errors_New (msg : string)
  | Errorf_w (prefix : string) (err : GoError).

(** The [Error()] method. *)
Fixpoint Error (e : GoError) : string :=
  match e with
  | errors_New msg => msg
  | Errorf_w prefix err => prefix +:+ Error err
  end.

(** [errors.Unwrap]. *)
Definition Unwrap (e : GoError) : option GoError :=
  match e with
  | errors_New _ => None
  | Errorf_w _ err => Some err
  end.

(** The verb [%d] on a loop index. *)
Definition format_d (i : nat) : string := NilEmpty.string_of_uint (Nat.to_uint i).

(** [time.Duration] counts nanoseconds. *)
Definition Second : Z := 1000000000.

(** A non-nil [context.Context]; a nil one is [None] at its use. *)
Inductive Context : Type :=
  | Background
  | TODO
  | WithDeadline (parent : Context) (deadline : Z).

(** The [Deadline()] method: a child never outlives its parent. *)
Fixpoint Deadline (ctx : Context) : option Z :=
  match ctx with
  | Background | TODO => None
  | WithDeadline parent d =>
      match Deadline parent with
      | Some d' => Some (Z.min d' d)
      | None => Some d
      end
  end.

(** A [context.CancelFunc]: [Some c] cancels [c], [None] is the nil func. *)
Definition CancelFunc : Type := option Context.

(** The contents of one header map: canonical key to values in order. *)
Abbreviation HeaderMap := (gmap string (list string)).

(** An [http.Header]: a reference to a header map, [None] the nil map. *)
Definition Header : Type := option nat.

(** A [*http.Request] as far as this package reads and writes it. *)
Record HttpRequest : Type := {
  Ctx : Context;
  Method : string;
  URL : string;
  ReqHeader : Header;
  Body : option string;
}.

(** What a transport sees of a request at the moment it is sent. *)
Record WireRequest : Type := {
  wire_method : string;
  wire_url : string;
  wire_header : HeaderMap;
  wire_body : option string;
}.

(** A response body: what [io.ReadAll] on it returns. *)
Record ReadCloser : Type := {
  content : string;
  read_err : option GoError;
}.

Record HttpResponse : Type := {
  StatusCode : Z;
  RespBody : ReadCloser;
}.

(** An [http.RoundTripper] with the redirect policy and cookie jar around
    it: from the requests sent so far and the one being sent to a response
    or an error. *)
Definition RoundTripper : Type :=
  list WireRequest -> WireRequest -> HttpResponse + GoError.

(** An [http.Client]. *)
Record HttpClient : Type := {
  Transport : RoundTripper;
  Timeout : Z;
}.

(** ** The world and the monad of Go functions *)

Record World : Type := {
  heap : list HeaderMap;      (* the header maps allocated so far *)
  wire : list WireRequest;    (* requests sent through a transport, oldest first *)
  closed : nat;               (* response bodies closed *)
  cancelled : list Context;   (* contexts cancelled, oldest first *)
  clock : Z;                  (* time.Now() *)
}.

Definition set_heap (h : list HeaderMap) (w : World) : World :=
  {| heap := h; wire := wire w; closed := closed w;
     cancelled := cancelled w; clock := clock w |}.

Definition set_wire (s : list WireRequest) (w : World) : World :=
  {| heap := heap w; wire := s; closed := closed w;
     cancelled := cancelled w; clock := clock w |}.

Definition set_closed (n : nat) (w : World) : World :=
  {| heap := heap w; wire := wire w; closed := n;
     cancelled := cancelled w; clock := clock w |}.

Definition set_cancelled (cs : list Context) (w : World) : World :=
  {| heap := heap w; wire := wire w; closed := closed w;
     cancelled := cs; clock := clock w |}.

Inductive Outcome (A : Type) : Type :=
  | Ret (a : A) (w : World)
  | Panic (msg : string) (w : World).
Arguments Ret {A} a w.
Arguments Panic {A} msg w.

Definition Go (A : Type) : Type := World -> Outcome A.

#[global] Instance Go_ret : MRet Go := fun A a w => Ret a w.

#[global] Instance Go_bind : MBind Go := fun A B f m w =>
  match m w with
  | Ret a w' => f a w'
  | Panic msg w' => Panic msg w'
  end.

Definition panic {A : Type} (msg : string) : Go A := fun w => Panic msg w.

(** The world an outcome ends in, and its value when it returned. *)
Definition world_of {A : Type} (o : Outcome A) : World :=
  match o with Ret _ w => w | Panic _ w => w end.

Definition value_of {A : Type} (o : Outcome A) : option A :=
  match o with Ret a _ => Some a | Panic _ _ => None end.

(** ** Operations of [http.Header] *)

(** [make(http.Header)], or a copy of given contents. *)
Definition alloc (m : HeaderMap) : Go nat := fun w =>
  Ret (length (heap w)) (set_heap (heap w ++ [m]) w).

(** The contents a header denotes in a world; the nil map reads as empty. *)
Definition contents (w : World) (h : Header) : HeaderMap :=
  match h with
  | None => ∅
  | Some l => default ∅ (heap w !! l)
  end.

(** [h.Values(key)]. *)
Definition Header_Values (w : World) (h : Header) (key : string) : list string :=
  default [] (contents w h !! CanonicalMIMEHeaderKey key).

(** [h.Get(key)]. *)
Definition Header_Get (w : World) (h : Header) (key : string) : string :=
  match Header_Values w h key with
  | [] => ""
  | v :: _ => v
  end.

(** An assignment [h[k] = f(h[k])] through the reference. *)
Definition Header_update (h : Header) (f : HeaderMap -> HeaderMap) : Go unit := fun w =>
  match h with
  | None => Panic "assignment to entry in nil map" w
  | Some l =>
      match heap w !! l with
      | Some m => Ret tt (set_heap (<[l := f m]> (heap w)) w)
      | None => Panic "invalid memory address" w
      end
  end.

(** [h[k] = append(h[k], value)] and [h[k] = []string{value}] on the
    contents, [k] being the canonical key. *)
Definition add_value (key value : string) (m : HeaderMap) : HeaderMap :=
  let k := CanonicalMIMEHeaderKey key in
  <[k := default [] (m !! k) ++ [value]]> m.

Definition set_value (key value : string) (m : HeaderMap) : HeaderMap :=
  <[CanonicalMIMEHeaderKey key := [value]]> m.

(** [h.Add(key, value)]. *)
Definition Header_Add (h : Header) (key value : string) : Go unit :=
  Header_update h (add_value key value).

(** [h.Set(key, value)]. *)
Definition Header_Set (h : Header) (key value : string) : Go unit :=
  Header_update h (set_value key value).

(** [h.Clone()]: nil for nil, else a new map with the same contents.  The
    value slices of the copy have no spare capacity, so an [append] to one
    of them never writes into memory the original can see: values are
    lists here, not references. *)
Definition Header_Clone (h : Header) : Go Header := fun w =>
  match h with
  | None => Ret None w
  | Some l =>
      match heap w !! l with
      | Some m => (l' ← alloc m; mret (Some l')) w
      | None => Panic "invalid memory address" w
      end
  end.

(** [for k, v := range headers { h.Set(k, v) }], the list giving the pairs
    of the Go map in the order the loop meets them. *)
Fixpoint Header_SetAll (h : Header) (headers : list (string * string)) : Go unit :=
  match headers with
  | [] => mret tt
  | (k, v) :: rest => _ ← Header_Set h k v; Header_SetAll h rest
  end.

(** ** What the package takes from the Go runtime and the process *)

(** An [os/user.User]. *)
Record User : Type := {
  Name : string;
  Username : string;
  HomeDir : string;
}.

Class Runtime : Type := {
  (* the values a caller may hand to the JSON builder, and json.Marshal *)
  Data : Type;
  json_Marshal : Data -> string * option GoError;
  (* the checks of http.NewRequestWithContext on context, method and URL *)
  request_error : option Context -> string -> string -> option GoError;
  (* os.Getenv and user.Current *)
  os_Getenv : string -> string;
  user_Current : User + GoError;
  (* the http.Transport over the network that NewConn builds *)
  network : RoundTripper;
}.

(** ** The helpers file: [userAgent] *)

Definition httpAgentPrefix : string := "go-webservice/v0".

Definition userAgent `{Runtime} : string :=
  let agent := httpAgentPrefix in
  let ua := os_Getenv "USER_AGENT" in
  if negb (String.eqb ua "") then agent +:+ "/" +:+ ua
  else
    let system := os_Getenv "SYSTEM" in
    let component := os_Getenv "COMPONENT" in
    if negb (String.eqb system "") then
      let agent := agent +:+ "/" +:+ system in
      if negb (String.eqb component "") then agent +:+ "/" +:+ component
      else agent
    else
      match user_Current with
      | inr _ => "UNKNOWN"
      | inl usr =>
          if negb (String.eqb (Name usr) "") then agent +:+ "/" +:+ Name usr
          else if negb (String.eqb (Username usr) "") then agent +:+ "/" +:+ Username usr
          else if negb (String.eqb (HomeDir usr) "") then agent +:+ "/" +:+ HomeDir usr
          else "UNKNOWN"
      end.

(** ** [conn.go]: connection options

    The dialer hook and the TLS configuration only shape the network
    transport, which is [network] here; the numeric options are kept. *)

Record ConnOptions : Type := {
  maxIdleConns : Z;
  maxIdleConnsPerHost : Z;
  maxConnsPerHost : Z;
  tcpKeepAlive : Z;
  keepAlive : Z;
  connTimeout : Z;
  requestTimeout : Z;
}.

Definition DefaultConnOptions : ConnOptions :=
  {| maxIdleConns := 5; maxIdleConnsPerHost := 5; maxConnsPerHost := 100;
     tcpKeepAlive := 30 * Second; keepAlive := 30 * Second;
     connTimeout := 10 * Second; requestTimeout := 0 |}.

Definition ConnOptions_WithTimeout (options : ConnOptions) (value : Z) : ConnOptions :=
  {| maxIdleConns := maxIdleConns options;
     maxIdleConnsPerHost := maxIdleConnsPerHost options;
     maxConnsPerHost := maxConnsPerHost options;
     tcpKeepAlive := tcpKeepAlive options; keepAlive := keepAlive options;
     connTimeout := value; requestTimeout := requestTimeout options |}.

Definition ConnOptions_WithRequestTimeout (options : ConnOptions) (value : Z) : ConnOptions :=
  {| maxIdleConns := maxIdleConns options;
     maxIdleConnsPerHost := maxIdleConnsPerHost options;
     maxConnsPerHost := maxConnsPerHost options;
     tcpKeepAlive := tcpKeepAlive options; keepAlive := keepAlive options;
     connTimeout := connTimeout options; requestTimeout := value |}.

Definition NewConn `{Runtime} (opts : ConnOptions) : HttpClient :=
  {| Transport := network; Timeout := requestTimeout opts |}.

(** ** The client file: options and [Client] *)

(** A [RequestMiddleware]: it may read and write every header map it can
    reach, and returns a request (possibly nil) and an error. *)
Definition RequestMiddleware : Type :=
  option Context -> option HttpRequest -> Go (option HttpRequest * option GoError).

Record ClientOptions : Type := {
  Conn : option HttpClient;
  MaxRequestTimeout : Z;
  Headers : Header;
  Middlewares : list RequestMiddleware;
}.

Record Client : Type := {
  host : string;
  conn : option HttpClient;
  defaultTimeout : Z;
  dheaders : Header;
  middlewares : list RequestMiddleware;
}.

(** [h.Add(k, v)] for every pair of a Go map, in the order met. *)
Fixpoint Header_AddAll (h : Header) (headers : list (string * string)) : Go unit :=
  match headers with
  | [] => mret tt
  | (k, v) :: rest => _ ← Header_Add h k v; Header_AddAll h rest
  end.

Definition ClientOptions_AddHeaders (options : ClientOptions)
    (headers : list (string * string)) : Go ClientOptions :=
  hs ← (match Headers options with
        | None => l ← alloc ∅; mret (Some l)
        | Some l => mret (Some l)
        end);
  _ ← Header_AddAll hs headers;
  mret {| Conn := Conn options; MaxRequestTimeout := MaxRequestTimeout options;
          Headers := hs; Middlewares := Middlewares options |}.

Definition ClientOptions_sanitize `{Runtime} (options : ClientOptions) : Go ClientOptions :=
  let timeout :=
    if MaxRequestTimeout options =? 0 * Second then 5 * Second
    else MaxRequestTimeout options in
  let c :=
    match Conn options with
    | None =>
        Some (NewConn (ConnOptions_WithTimeout
                         (ConnOptions_WithRequestTimeout DefaultConnOptions timeout)
                         timeout))
    | Some c => Some c
    end in
  hs ← (match Headers options with
        | None => l ← alloc ∅; mret (Some l)
        | Some l => mret (Some l)
        end);
  mret {| Conn := c; MaxRequestTimeout := timeout;
          Headers := hs; Middlewares := Middlewares options |}.

(** The [http.Client] literal that [NewCustomClient] and [SetTimeout] build
    when the timeouts differ: same redirect policy, jar and transport. *)
Definition retimed (c : option HttpClient) (timeout : Z) : Go (option HttpClient) :=
  if 0 <? timeout then
    match c with
    | None => panic "invalid memory address"
    | Some c0 =>
        if negb (Timeout c0 =? timeout)
        then mret (Some {| Transport := Transport c0; Timeout := timeout |})
        else mret c
    end
  else mret c.

Definition NewCustomClient `{Runtime} (host0 : string) (options : ClientOptions) : Go Client :=
  options ← ClientOptions_sanitize options;
  _ ← Header_Add (Headers options) "User-Agent" userAgent;
  c ← retimed (Conn options) (MaxRequestTimeout options);
  mret {| host := host0; conn := c;
          defaultTimeout := MaxRequestTimeout options;
          dheaders := Headers options;
          middlewares := Middlewares options |}.

Definition NewClient `{Runtime} (host0 : string) : Go Client :=
  NewCustomClient host0
    {| Conn := None; MaxRequestTimeout := 0; Headers := None; Middlewares := [] |}.

Definition Client_Clone (cli : Client) : Go Client :=
  hs ← Header_Clone (dheaders cli);
  mret {| host := host cli; conn := conn cli;
          defaultTimeout := defaultTimeout cli;
          dheaders := hs; middlewares := middlewares cli |}.

Definition Client_FullURL (cli : Client) (endpoint : string) : string :=
  combineURL (host cli) endpoint.

(** The pointer receiver is the client value threaded through. *)
Definition Client_AddDefaultHeader (cli : Client) (key value : string) : Go Client :=
  _ ← Header_Add (dheaders cli) key value; mret cli.

Definition Client_SetDefaultHeader (cli : Client) (key value : string) : Go Client :=
  _ ← Header_Set (dheaders cli) key value; mret cli.

Definition Client_SetTimeout (cli : Client) (timeout : Z) : Go Client :=
  c ← retimed (conn cli) timeout;
  mret {| host := host cli; conn := c; defaultTimeout := timeout;
          dheaders := dheaders cli; middlewares := middlewares cli |}.

(** ** [request.go]: the streaming builder *)

Record StreamRequester : Type := {
  cli : Client;
  headers : Header;
  timeout : Z;
}.

(** The zero value [StreamRequester{}]. *)
Definition zero_Client : Client :=
  {| host := ""; conn := None; defaultTimeout := 0; dheaders := None; middlewares := [] |}.

Definition zero_StreamRequester : StreamRequester :=
  {| cli := zero_Client; headers := None; timeout := 0 |}.

Definition StreamRequester_validate (req : StreamRequester) : option GoError :=
  match conn (cli req) with
  | None => Some (errors_New "request must be created from a Client")
  | Some _ => None
  end.

Definition StreamRequester_Clone (req : StreamRequester) : Go StreamRequester :=
  hs ← Header_Clone (headers req);
  mret {| cli := cli req; headers := hs; timeout := timeout req |}.

Definition StreamRequester_WithHeader (req : StreamRequester) (key value : string)
    : Go StreamRequester :=
  req ← StreamRequester_Clone req;
  _ ← Header_Add (headers req) key value;
  mret req.

Definition StreamRequester_WithUniqueHeader (req : StreamRequester) (key value : string)
    : Go StreamRequester :=
  req ← StreamRequester_Clone req;
  _ ← Header_Set (headers req) key value;
  mret req.

Definition StreamRequester_WithHeaders (req : StreamRequester)
    (hs : list (string * string)) : Go StreamRequester :=
  req ← StreamRequester_Clone req;
  _ ← Header_SetAll (headers req) hs;
  mret req.

(** The receiver is a copy of the struct: the header reference is kept. *)
Definition StreamRequester_WithTimeout (req : StreamRequester) (t : Z) : StreamRequester :=
  {| cli := cli req; headers := headers req; timeout := t |}.

(** [http.NewRequestWithContext]: after its checks, a request with a new
    empty header map. *)
Definition http_NewRequestWithContext `{Runtime} (ctx : option Context)
    (method url : string) (body : option string)
    : Go (option HttpRequest * option GoError) :=
  match request_error ctx method url, ctx with
  | Some err, _ => mret (None, Some err)
  | None, None => mret (None, Some (errors_New "net/http: nil Context"))
  | None, Some c =>
      l ← alloc ∅;
      mret (Some {| Ctx := c; Method := method; URL := url;
                    ReqHeader := Some l; Body := body |}, None)
  end.

(** [hreq.Header = hs] on a request pointer. *)
Definition set_Header (hreq : HttpRequest) (hs : Header) : HttpRequest :=
  {| Ctx := Ctx hreq; Method := Method hreq; URL := URL hreq;
     ReqHeader := hs; Body := Body hreq |}.

(** The loop of [Prepare] from index [i] on, [mws] being
    [req.cli.middlewares[i:]]. *)
Fixpoint run_middlewares (ctx : option Context) (mws : list RequestMiddleware)
    (i : nat) (hreq : option HttpRequest)
    : Go (option HttpRequest * option GoError) :=
  match mws with
  | [] => mret (hreq, None)
  | mw :: rest =>
      '(hreq', err) ← mw ctx hreq;
      match err with
      | Some e =>
          mret (None, Some (Errorf_w ("failed to run middleware [" +:+ format_d i +:+ "]; ") e))
      | None => run_middlewares ctx rest (S i) hreq'
      end
  end.

Definition StreamRequester_Prepare `{Runtime} (req : StreamRequester)
    (ctx : option Context) (method endpoint : string) (body : option string)
    : Go (option HttpRequest * option GoError) :=
  match StreamRequester_validate req with
  | Some err => mret (None, Some err)
  | None =>
      '(hreq, err) ← http_NewRequestWithContext ctx method
                        (Client_FullURL (cli req) endpoint) body;
      match err, hreq with
      | Some e, _ => mret (None, Some (Errorf_w "error creating request; " e))
      | None, None => panic "invalid memory address"
      | None, Some r =>
          run_middlewares ctx (middlewares (cli req)) 0
            (Some (set_Header r (headers req)))
      end
  end.

(** [conn.Do(hreq)]: the transport reads the request as it is now, headers
    included, and the call is recorded. *)
Definition HttpClient_Do (c : HttpClient) (hreq : option HttpRequest)
    : Go (option HttpResponse * option GoError) := fun w =>
  match hreq with
  | None => Panic "invalid memory address" w
  | Some r =>
      let sent := {| wire_method := Method r; wire_url := URL r;
                     wire_header := contents w (ReqHeader r);
                     wire_body := Body r |} in
      let w' := set_wire (wire w ++ [sent]) w in
      match Transport c (wire w) sent with
      | inl res => Ret (Some res, None) w'
      | inr err => Ret (None, Some err) w'
      end
  end.

Definition StreamRequester_Do `{Runtime} (req : StreamRequester)
    (ctx : option Context) (method endpoint : string) (body : option string)
    : Go (Z * option ReadCloser * option GoError) :=
  '(hreq, err) ← StreamRequester_Prepare req ctx method endpoint body;
  match err with
  | Some e => mret (0, None, Some (Errorf_w "error creating request; " e))
  | None =>
      match conn (cli req) with
      | None => panic "invalid memory address"
      | Some c =>
          '(res, err) ← HttpClient_Do c hreq;
          match err, res with
          | Some e, _ => mret (0, None, Some (Errorf_w "error running request; " e))
          | None, None => panic "invalid memory address"
          | None, Some r => mret (StatusCode r, Some (RespBody r), None)
          end
      end
  end.

(** [context.WithTimeout(parent, d)]. *)
Definition context_WithTimeout (parent : Context) (d : Z) : Go (Context * CancelFunc) :=
  fun w =>
    let child := WithDeadline parent (clock w + d) in
    Ret (child, Some child) w.

Definition StreamRequester_Context (req : StreamRequester) (ctx : option Context)
    : Go (Context * CancelFunc) :=
  let ctx := match ctx with None => Background | Some c => c end in
  if 0 <? timeout req then context_WithTimeout ctx (timeout req)
  else mret (ctx, None).

(** Calling a [CancelFunc]; the nil func cannot be called. *)
Definition call_cancel (cancel : CancelFunc) : Go unit := fun w =>
  match cancel with
  | None => Panic "invalid memory address" w
  | Some c => Ret tt (set_cancelled (cancelled w ++ [c]) w)
  end.

(** ** [request.go]: the buffered builder *)

Record Requester : Type := {
  core : StreamRequester;
}.

Definition Requester_WithTimeout (req : Requester) (t : Z) : Requester :=
  {| core := StreamRequester_WithTimeout (core req) t |}.

Definition Requester_WithHeader (req : Requester) (key value : string) : Go Requester :=
  c ← StreamRequester_WithHeader (core req) key value; mret {| core := c |}.

Definition Requester_WithUniqueHeader (req : Requester) (key value : string) : Go Requester :=
  c ← StreamRequester_WithUniqueHeader (core req) key value; mret {| core := c |}.

Definition Requester_WithHeaders (req : Requester) (hs : list (string * string))
    : Go Requester :=
  c ← StreamRequester_WithHeaders (core req) hs; mret {| core := c |}.

Definition Requester_Prepare `{Runtime} (req : Requester)
    (ctx : option Context) (method endpoint : string) (body : string)
    : Go (option HttpRequest * option GoError) :=
  StreamRequester_Prepare (core req) ctx method endpoint (Some body).

(** [payload.Close()]. *)
Definition ReadCloser_Close (payload : ReadCloser) : Go unit := fun w =>
  Ret tt (set_closed (S (closed w)) w).

(** [io.ReadAll(payload)]. *)
Definition io_ReadAll (payload : ReadCloser) : string * option GoError :=
  (content payload, read_err payload).

(** The deferred calls run when [Do] returns, last deferred first; a panic
    ends the run where it happens. *)
Definition Requester_Do `{Runtime} (req : Requester)
    (ctx : option Context) (method endpoint : string) (data : string)
    : Go (Z * option string * option GoError) :=
  '(ctx, cancel) ← StreamRequester_Context (core req) ctx;
  let deferred_cancel : Go unit :=
    match cancel with
    | None => mret tt
    | Some _ => call_cancel cancel
    end in
  '(status, payload, err) ← StreamRequester_Do (core req) (Some ctx) method endpoint (Some data);
  match err with
  | Some e => _ ← deferred_cancel; mret (0, None, Some e)
  | None =>
      match payload with
      | None => panic "invalid memory address"
      | Some p =>
          let '(response, err) := io_ReadAll p in
          match err with
          | Some e =>
              _ ← ReadCloser_Close p;
              _ ← deferred_cancel;
              mret (status, None, Some (Errorf_w "error reading http body; " e))
          | None =>
              _ ← ReadCloser_Close p;
              _ ← deferred_cancel;
              mret (status, Some response, None)
          end
      end
  end.

(** ** [request.go]: the JSON builder *)

Record JSONRequester : Type := {
  json_core : Requester;
}.

Definition JSONRequester_Prepare `{Runtime} (req : JSONRequester)
    (ctx : option Context) (method endpoint : string) (data : Data)
    : Go (option HttpRequest * option GoError) :=
  let '(ebody, err) := json_Marshal data in
  match err with
  | Some e => mret (None, Some (Errorf_w "invalid request body; " e))
  | None => Requester_Prepare (json_core req) ctx method endpoint ebody
  end.

Definition JSONRequester_Do `{Runtime} (req : JSONRequester)
    (ctx : option Context) (method endpoint : string) (data : Data)
    : Go (Z * option string * option GoError) :=
  let '(ebody, err) := json_Marshal data in
  match err with
  | Some e => mret (0, None, Some (Errorf_w "invalid request body; " e))
  | None => Requester_Do (json_core req) ctx method endpoint ebody
  end.

Definition JSONRequester_WithTimeout (req : JSONRequester) (t : Z) : JSONRequester :=
  {| json_core := Requester_WithTimeout (json_core req) t |}.

Definition JSONRequester_WithHeader (req : JSONRequester) (key value : string)
    : Go JSONRequester :=
  c ← Requester_WithHeader (json_core req) key value; mret {| json_core := c |}.

Definition JSONRequester_WithUniqueHeader (req : JSONRequester) (key value : string)
    : Go JSONRequester :=
  c ← Requester_WithUniqueHeader (json_core req) key value; mret {| json_core := c |}.

Definition JSONRequester_WithHeaders (req : JSONRequester) (hs : list (string * string))
    : Go JSONRequester :=
  c ← Requester_WithHeaders (json_core req) hs; mret {| json_core := c |}.

(** ** The client file: request options and factories *)

(** A [RequestOption] is a closure made by one of five methods of [Client];
    it is kept as the method and the arguments it captured, and
    [apply_option] is its body run on [&req]. *)
Inductive RequestOption : Type :=
  | Client_RequestTimeout (t : Z)
  | Client_RequestHeaders (hs : list (string * string))
  | Client_RequestHeader (k v : string)
  | Client_RequestUniqueHeader (k v : string)
  | Client_WithDefaultHeader (k v : string).

Definition apply_option (opt : RequestOption) (req : StreamRequester) : Go StreamRequester :=
  match opt with
  | Client_RequestTimeout t => mret (StreamRequester_WithTimeout req t)
  | Client_RequestHeaders hs => _ ← Header_SetAll (headers req) hs; mret req
  | Client_RequestHeader k v => _ ← Header_Add (headers req) k v; mret req
  | Client_RequestUniqueHeader k v => _ ← Header_Set (headers req) k v; mret req
  | Client_WithDefaultHeader k v => fun w =>
      if negb (String.eqb (Header_Get w (headers req) k) "") then Ret req w
      else (_ ← Header_Set (headers req) k v; mret req) w
  end.

Fixpoint apply_options (opts : list RequestOption) (req : StreamRequester)
    : Go StreamRequester :=
  match opts with
  | [] => mret req
  | opt :: rest => req ← apply_option opt req; apply_options rest req
  end.

Definition Client_NewStreamRequest (c : Client) (opts : list RequestOption)
    : Go StreamRequester :=
  hs ← Header_Clone (dheaders c);
  apply_options opts {| cli := c; headers := hs; timeout := 0 |}.

Definition Client_NewRequest (c : Client) (opts : list RequestOption) : Go Requester :=
  r ← Client_NewStreamRequest c opts; mret {| core := r |}.

Definition Client_NewJSONRequest (c : Client) (opts : list RequestOption)
    : Go JSONRequester :=
  r ← Client_NewRequest c opts;
  _ ← Header_Set (headers (core r)) "Content-Type" "application/json";
  mret {| json_core := r |}.



(** ** Vocabulary of the statements *)

(** A header that refers to a map of the store.  Every builder made by a
    factory of a client that [NewCustomClient] returned has one; the zero
    value [StreamRequester{}] has the nil map. *)
Definition allocated (w : World) (h : Header) : Prop :=
  match h with
  | Some l => (l < length (heap w))%nat
  | None => False
  end.

(** The header mutators of the streaming builder. *)
Inductive HeaderOp : Type :=
  | OpWithHeader (k v : string)
  | OpWithUniqueHeader (k v : string)
  | OpWithHeaders (hs : list (string * string)).

Definition apply_op (op : HeaderOp) (B : StreamRequester) : Go StreamRequester :=
  match op with
  | OpWithHeader k v => StreamRequester_WithHeader B k v
  | OpWithUniqueHeader k v => StreamRequester_WithUniqueHeader B k v
  | OpWithHeaders hs => StreamRequester_WithHeaders B hs
  end.

(** What a mutator does to the contents of the clone. *)
Definition op_effect (op : HeaderOp) (m : HeaderMap) : HeaderMap :=
  match op with
  | OpWithHeader k v => add_value k v m
  | OpWithUniqueHeader k v => set_value k v m
  | OpWithHeaders hs => fold_left (fun m kv => set_value kv.1 kv.2 m) hs m
  end.

(** The [With*] methods of the JSON builder. *)
Inductive JSONOp : Type :=
  | JWithTimeout (t : Z)
  | JWithHeader (k v : string)
  | JWithUniqueHeader (k v : string)
  | JWithHeaders (hs : list (string * string)).

Definition apply_json_op (op : JSONOp) (J : JSONRequester) : Go JSONRequester :=
  match op with
  | JWithTimeout t => mret (JSONRequester_WithTimeout J t)
  | JWithHeader k v => JSONRequester_WithHeader J k v
  | JWithUniqueHeader k v => JSONRequester_WithUniqueHeader J k v
  | JWithHeaders hs => JSONRequester_WithHeaders J hs
  end.

Fixpoint apply_json_ops (ops : list JSONOp) (J : JSONRequester) : Go JSONRequester :=
  match ops with
  | [] => mret J
  | op :: rest => J' ← apply_json_op op J; apply_json_ops rest J'
  end.

(** The keys an operation writes. *)
Definition json_op_keys (op : JSONOp) : list string :=
  match op with
  | JWithTimeout _ => []
  | JWithHeader k _ => [k]
  | JWithUniqueHeader k _ => [k]
  | JWithHeaders hs => hs.*1
  end.

(** An operation that writes no key with the canonical form of [key]. *)
Definition spares (key : string) (op : JSONOp) : Prop :=
  Forall (fun k => CanonicalMIMEHeaderKey k <> CanonicalMIMEHeaderKey key) (json_op_keys op).

Definition json_headers (J : JSONRequester) : Header := headers (core (json_core J)).

(** Every middleware of the list runs without error, in order, each on the
    request the one before returned. *)
Inductive chain (ctx : option Context)
    : list RequestMiddleware -> option HttpRequest -> World ->
      option HttpRequest -> World -> Prop :=
  | chain_nil hreq w : chain ctx [] hreq w hreq w
  | chain_cons mw mws hreq w hreq1 w1 hreq2 w2 :
      mw ctx hreq w = Ret (hreq1, None) w1 ->
      chain ctx mws hreq1 w1 hreq2 w2 ->
      chain ctx (mw :: mws) hreq w hreq2 w2.

(** ** Fixtures: the runtime and the middlewares of the package's tests *)

Inductive SampleData : Type :=
  | data_nil          (* nil *)
  | data_chan.        (* a channel: json.Marshal has no encoding for it *)

Definition sample_response : HttpResponse :=
  {| StatusCode := 200; RespBody := {| content := "ok"; read_err := None |} |}.

(** A transport whose bodies break while they are read. *)
Definition broken_body_response : HttpResponse :=
  {| StatusCode := 200;
     RespBody := {| content := "o"; read_err := Some (errors_New "unexpected EOF") |} |}.

Definition sample_runtime : Runtime :=
  {| Data := SampleData;
     json_Marshal := fun d =>
       match d with
       | data_nil => ("null", None)
       | data_chan => ("", Some (errors_New "json: unsupported type: chan int"))
       end;
     request_error := fun _ _ _ => None;
     os_Getenv := fun k =>
       if String.eqb k "SYSTEM" then "system"
       else if String.eqb k "COMPONENT" then "component" else "";
     user_Current := inr (errors_New "user: Current not implemented");
     network := fun _ _ => inl sample_response |}.

Definition empty_world : World :=
  {| heap := []; wire := []; closed := 0; cancelled := []; clock := 0 |}.

(** The middleware of [TestClient_NewRequest]: [req.Header.Add("mh", "mv")]. *)
Definition add_mh : RequestMiddleware := fun ctx req =>
  match req with
  | None => panic "invalid memory address"
  | Some r => _ ← Header_Add (ReqHeader r) "mh" "mv"; mret (Some r, None)
  end.

(** The middleware of [TestRequestWithMiddlewares]: it fails with "puff". *)
Definition puff : RequestMiddleware := fun ctx req =>
  mret (req, Some (errors_New "puff")).

Definition with_middlewares (mws : list RequestMiddleware) : ClientOptions :=
  {| Conn := None; MaxRequestTimeout := 0; Headers := None; Middlewares := mws |}.

(** The programs the statements run. *)

Definition sample_host : string := "http://127.0.0.1:8080".

(** [cli := NewCustomClient(host, ClientOptions{Middlewares: mws});
    req := cli.NewRequest()]. *)
Definition new_request (mws : list RequestMiddleware) : Go Requester :=
  c ← @NewCustomClient sample_runtime sample_host (with_middlewares mws);
  Client_NewRequest c [].

(** [req.Header.Values(key)] of every request sent so far. *)
Definition sent_values (key : string) : Go (list (list string)) := fun w =>
  Ret ((fun s => default [] (wire_header s !! CanonicalMIMEHeaderKey key)) <$> wire w) w.

Definition read_values (h : Header) (key : string) : Go (list string) := fun w =>
  Ret (Header_Values w h key) w.

(** One builder, [Do] twice: the values of [key] the builder holds before,
    between and after the calls, the two results, and the values of [key]
    the transport received each time. *)
Definition replay (mws : list RequestMiddleware) (key : string)
    : Go (list (list string) * list (Z * option string * option GoError)
          * list (list string)) :=
  req ← new_request mws;
  before ← read_values (headers (core req)) key;
  r1 ← @Requester_Do sample_runtime req (Some TODO) "GET" "/" "";
  between ← read_values (headers (core req)) key;
  r2 ← @Requester_Do sample_runtime req (Some TODO) "GET" "/" "";
  after ← read_values (headers (core req)) key;
  sent ← sent_values key;
  mret ([before; between; after], [r1; r2], sent).

(** [cli.NewJSONRequest().WithHeader("Content-Type", value)], and the
    Content-Type values of the result. *)
Definition json_with_second_content_type (value : string) : Go (list string) :=
  c ← @NewClient sample_runtime sample_host;
  J ← Client_NewJSONRequest c [];
  J' ← JSONRequester_WithHeader J "Content-Type" value;
  read_values (json_headers J') "Content-Type".

(** The inputs the statements are tried on. *)

(** [NewClient(host).NewRequest()] from scratch: its streaming builder, its
    client and the world it lives in. *)
Definition sample_outcome : Outcome Requester := new_request [] empty_world.

Definition sample_builder : StreamRequester :=
  match sample_outcome with
  | Ret r _ => core r
  | Panic _ _ => zero_StreamRequester
  end.

Definition sample_world : World := world_of sample_outcome.

Definition sample_client : Client := cli sample_builder.

(** A builder of a client whose second middleware fails. *)
Definition puff_outcome : Outcome Requester :=
  new_request [add_mh; puff; add_mh] empty_world.

Definition puff_builder : StreamRequester :=
  match puff_outcome with
  | Ret r _ => core r
  | Panic _ _ => zero_StreamRequester
  end.

Definition puff_world : World := world_of puff_outcome.

(** The request [http.NewRequestWithContext] builds for [puff_builder]:
    the store holds the client's map, the builder's and now the request's. *)
Definition puff_request : HttpRequest :=
  {| Ctx := TODO; Method := "GET"; URL := "http://127.0.0.1:8080/t02";
     ReqHeader := Some 2%nat; Body := None |}.

(** A builder with a timeout of five seconds, at time 100. *)
Definition timed_builder : StreamRequester :=
  StreamRequester_WithTimeout sample_builder (5 * Second).

Definition world_at_100 : World :=
  {| heap := heap sample_world; wire := []; closed := 0; cancelled := [];
     clock := 100 |}.

(** A caller's options with a User-Agent of its own, and a world holding
    the caller's header map. *)
Definition caller_world : World :=
  {| heap := [{[ "User-Agent" := ["curl/8.0"] ]}]; wire := []; closed := 0;
     cancelled := []; clock := 0 |}.

Definition caller_options : ClientOptions :=
  {| Conn := None; MaxRequestTimeout := 10 * Second; Headers := Some 0%nat;
     Middlewares := [] |}.

(** A builder of a client whose transport answers 200 with a body that
    breaks while it is read. *)
Definition broken_body_conn : HttpClient :=
  {| Transport := fun _ _ => inl broken_body_response; Timeout := 5 * Second |}.

Definition broken_body_outcome : Outcome Requester :=
  (c ← @NewCustomClient sample_runtime sample_host
         {| Conn := Some broken_body_conn; MaxRequestTimeout := 0;
            Headers := None; Middlewares := [] |};
   Client_NewRequest c []) empty_world.

Definition broken_body_builder : Requester :=
  match broken_body_outcome with
  | Ret r _ => r
  | Panic _ _ => {| core := zero_StreamRequester |}
  end.

Definition broken_body_world : World := world_of broken_body_outcome.

(** The [With*] calls of the test "json requests". *)
Definition test_json_ops : list JSONOp :=
  [JWithTimeout (5 * Second); JWithHeader "h1" "v1"; JWithTimeout Second;
   JWithHeader "h1" "v2"; JWithHeader "h2" "v1"; JWithUniqueHeader "h2" "v2"].

(** The sentences of the specification that the code does not follow, as
    they are written. *)

(** "A JSON builder always carries exactly one Content-Type:
    application/json value regardless of how many times headers are
    subsequently cloned/extended." *)
Definition content_type_survives_every_op : Prop :=
  forall (c : Client) (opts : list RequestOption) (ops : list JSONOp)
         (w w1 w' : World) (J J' : JSONRequester),
    allocated w (dheaders c) ->
    Client_NewJSONRequest c opts w = Ret J w1 ->
    apply_json_ops ops J w1 = Ret J' w' ->
    Header_Values w' (json_headers J') "Content-Type" = ["application/json"].

(** "otherwise returns parent unchanged and a no-op cancel", in its two
    parts: the parent comes back as it was given; the cancel function can
    be called and does nothing. *)
Definition Context_otherwise_returns_parent : Prop :=
  forall (req : StreamRequester) (parent : option Context) (w : World),
    timeout req <= 0 ->
    exists ctx cancel,
      StreamRequester_Context req parent w = Ret (ctx, cancel) w
      /\ Some ctx = parent.

Definition Context_otherwise_noop_cancel : Prop :=
  forall (req : StreamRequester) (parent : option Context) (w : World),
    timeout req <= 0 ->
    exists ctx cancel,
      StreamRequester_Context req parent w = Ret (ctx, cancel) w
      /\ call_cancel cancel w = Ret tt w.

(** * More of the package *)

(** ** The debug routes of the client file: [getIntQueryParam] *)

(** An [echo.Context], as far as the functions below read it. *)
Record EchoContext : Type := {
  QueryParam : string -> string;     (* c.QueryParam(name) *)
  ResponseStatus : Z;                (* c.Response().Status *)
  RequestPath : string;              (* c.Request().URL.Path *)
}.

(** The digits of a decimal numeral, most significant first. *)
Fixpoint parse_digits (s : string) (n : Z) : option Z :=
  match s with
  | EmptyString => Some n
  | String c s' =>
      if is_digit c then parse_digits s' (10 * n + (Z.of_nat (nat_of_ascii c) - 48))
      else None
  end.

Definition MaxInt : Z := 2 ^ 63 - 1.
Definition MinInt : Z := - 2 ^ 63.

(** The value [strconv.Atoi(s)] returns (its caller drops the error): the
    number for an optional sign and decimal digits, the nearest bound of
    [int] when the number is out of range, and 0 for anything else. *)
Definition Atoi_value (s : string) : Z :=
  let '(neg, digits) :=
    match s with
    | String "-" r => (true, r)
    | String "+" r => (false, r)
    | _ => (false, s)
    end in
  match digits with
  | EmptyString => 0
  | _ =>
      match parse_digits digits 0 with
      | None => 0
      | Some n =>
          if neg then (if n <=? 2 ^ 63 then - n else MinInt)
          else (if n <=? MaxInt then n else MaxInt)
      end
  end.

Definition getIntQueryParam (c : EchoContext) (name : string) (def min max : Z) : Z :=
  let val := Atoi_value (QueryParam c name) in
  if val =? 0 then def
  else if (val <? min) || (max <? val) then def
  else val.

(** ** The access log file: [AccessLogDiscarder] *)

Definition AccessLogLevelVerbose : N := 0.
Definition AccessLogLevelInfo : N := 1.
Definition AccessLogLevelWarn : N := 2.
Definition AccessLogLevelError : N := 3.

Definition StatusNotFound : Z := 404.

(** [IgnoreRoutes] is a compiled regular expression or nil; it stands as
    its [MatchString]. *)
Record AccessLogDiscarder : Type := {
  Level : N;
  IgnoreRoutes : option (string -> bool);
}.

Definition AccessLogDiscarder_Discard (discarder : AccessLogDiscarder)
    (c : EchoContext) : bool :=
  let status := ResponseStatus c in
  let by_level :=
    if (Level discarder =? AccessLogLevelError)%N then status <? 500
    else if (Level discarder =? AccessLogLevelWarn)%N then
      (status =? StatusNotFound) || (status <? 400)
    else if (Level discarder =? AccessLogLevelInfo)%N then
      (status =? StatusNotFound) || ((300 <=? status) && (status <? 400))
    else false in
  if by_level then true
  else
    (* the result of MatchString is dropped *)
    let _ := match IgnoreRoutes discarder with
             | Some re => re (RequestPath c)
             | None => false
             end in
    false.

Definition NewAccessLogDiscarder (level : N) (routeFilter : option (string -> bool))
    : EchoContext -> bool :=
  AccessLogDiscarder_Discard {| Level := level; IgnoreRoutes := routeFilter |}.

(** ** [conn.go]: the other builders, [sanitize] and what [NewConn] sets *)

Definition Millisecond : Z := 1000000.

(** Arithmetic of [int64], the type of [time.Duration]. *)
Definition wrap64 (z : Z) : Z := (z + 2 ^ 63) mod 2 ^ 64 - 2 ^ 63.

Definition ConnOptions_WithMaxIdleConns (options : ConnOptions) (value : Z) : ConnOptions :=
  {| maxIdleConns := value; maxIdleConnsPerHost := value;
     maxConnsPerHost := maxConnsPerHost options;
     tcpKeepAlive := tcpKeepAlive options; keepAlive := keepAlive options;
     connTimeout := connTimeout options; requestTimeout := requestTimeout options |}.

Definition ConnOptions_WithKeepAlive (options : ConnOptions) (value : Z) : ConnOptions :=
  {| maxIdleConns := maxIdleConns options;
     maxIdleConnsPerHost := maxIdleConnsPerHost options;
     maxConnsPerHost := maxConnsPerHost options;
     tcpKeepAlive := value; keepAlive := value;
     connTimeout := connTimeout options; requestTimeout := requestTimeout options |}.

Definition ConnOptions_WithMaxConnsPerHost (options : ConnOptions) (value : Z) : ConnOptions :=
  {| maxIdleConns := maxIdleConns options;
     maxIdleConnsPerHost := maxIdleConnsPerHost options;
     maxConnsPerHost := value;
     tcpKeepAlive := tcpKeepAlive options; keepAlive := keepAlive options;
     connTimeout := connTimeout options; requestTimeout := requestTimeout options |}.

(** [sanitize] of [ConnOptions] (a pointer receiver), on the value the
    pointer refers to. *)
Definition ConnOptions_sanitize (options : ConnOptions) : ConnOptions :=
  let '(ka, tka) :=
    if keepAlive options =? 0 then (30 * Second, 30 * Second)
    else (keepAlive options, tcpKeepAlive options) in
  let '(mic, micph) :=
    if maxIdleConns options =? 0 then (5, 5)
    else (maxIdleConns options, maxIdleConnsPerHost options) in
  let ct := if connTimeout options =? 0 then 3 * Second else connTimeout options in
  {| maxIdleConns := mic; maxIdleConnsPerHost := micph;
     maxConnsPerHost := maxConnsPerHost options;
     tcpKeepAlive := tka; keepAlive := ka;
     connTimeout := ct; requestTimeout := requestTimeout options |}.

(** The [net.Dialer] and the [http.Transport] literals of [NewConn]. *)
Record Dialer : Type := {
  Dialer_KeepAlive : Z;
  Dialer_Timeout : Z;
}.

Record HttpTransport : Type := {
  DialContext : Dialer;
  MaxIdleConns : Z;
  MaxIdleConnsPerHost : Z;
  IdleConnTimeout : Z;
  TLSHandshakeTimeout : Z;
  ExpectContinueTimeout : Z;
  MaxConnsPerHost : Z;
}.

Definition NewConn_transport (opts : ConnOptions) : HttpTransport :=
  let opts := ConnOptions_sanitize opts in
  {| DialContext := {| Dialer_KeepAlive := tcpKeepAlive opts;
                       Dialer_Timeout := connTimeout opts |};
     MaxIdleConns := maxIdleConns opts;
     MaxIdleConnsPerHost := maxIdleConnsPerHost opts;
     IdleConnTimeout := keepAlive opts;
     TLSHandshakeTimeout := wrap64 (connTimeout opts + 100 * Millisecond);
     ExpectContinueTimeout := wrap64 (connTimeout opts + 100 * Millisecond);
     MaxConnsPerHost := maxConnsPerHost opts |}.

(** The options a caller outside the package can build: the exported
    default or the zero value, then the exported [With*] methods. *)
Inductive buildable : ConnOptions -> Prop :=
  | buildable_default : buildable DefaultConnOptions
  | buildable_zero :
      buildable {| maxIdleConns := 0; maxIdleConnsPerHost := 0; maxConnsPerHost := 0;
                   tcpKeepAlive := 0; keepAlive := 0; connTimeout := 0;
                   requestTimeout := 0 |}
  | buildable_WithMaxIdleConns o v :
      buildable o -> buildable (ConnOptions_WithMaxIdleConns o v)
  | buildable_WithKeepAlive o v :
      buildable o -> buildable (ConnOptions_WithKeepAlive o v)
  | buildable_WithTimeout o v :
      buildable o -> buildable (ConnOptions_WithTimeout o v)
  | buildable_WithMaxConnsPerHost o v :
      buildable o -> buildable (ConnOptions_WithMaxConnsPerHost o v)
  | buildable_WithRequestTimeout o v :
      buildable o -> buildable (ConnOptions_WithRequestTimeout o v).

(** ** Vocabulary of the further statements *)

(** The value of the last pair of [hs] whose key has the canonical form of
    [key]. *)
Definition same_key (key : string) (kv : string * string) : bool :=
  String.eqb (CanonicalMIMEHeaderKey kv.1) (CanonicalMIMEHeaderKey key).

Definition values_for (key : string) (hs : list (string * string)) : list string :=
  snd <$> List.filter (same_key key) hs.

(** The request options that write headers, as the [With*] method of the
    same name. *)
Definition option_as_op (opt : RequestOption) : option HeaderOp :=
  match opt with
  | Client_RequestHeader k v => Some (OpWithHeader k v)
  | Client_RequestUniqueHeader k v => Some (OpWithUniqueHeader k v)
  | Client_RequestHeaders hs => Some (OpWithHeaders hs)
  | Client_RequestTimeout _ | Client_WithDefaultHeader _ _ => None
  end.





(** Further inputs the statements are tried on. *)

(** The connection of [sample_client]. *)
Definition sample_conn : HttpClient :=
  {| Transport := @network sample_runtime; Timeout := 5 * Second |}.

(** A runtime whose [http.NewRequestWithContext] rejects the method "GE T"
    (the message abridged). *)
Definition picky_runtime : Runtime :=
  {| Data := SampleData;
     json_Marshal := @json_Marshal sample_runtime;
     request_error := fun _ method _ =>
       if String.eqb method "GE T" then Some (errors_New "net/http: invalid method")
       else None;
     os_Getenv := @os_Getenv sample_runtime;
     user_Current := @user_Current sample_runtime;
     network := @network sample_runtime |}.

(** The buffered builder over [timed_builder]. *)
Definition timed_requester : Requester := {| core := timed_builder |}.

(** A Go map with two keys that differ only in case, in one of the two
    orders a loop may meet them. *)
Definition mixed_case_headers : list (string * string) :=
  [("x-tags", "a"); ("Accept", "text/html"); ("X-Tags", "b")].

(** * Properties *)

(** ** The URL join *)

Lemma substring_0_0 (s : string) : String.substring 0 0 s = "".
Proof. by destruct s. Qed.

Lemma substring_whole (s : string) : String.substring 0 (String.length s) s = s.
Proof. induction s as [|c s IH]; simpl; [done | by rewrite IH]. Qed.

Lemma slice_from_1 (c : ascii) (s : string) : slice_from 1 (String c s) = s.
Proof.
  unfold slice_from. simpl. rewrite Nat.sub_0_r. apply substring_whole.
Qed.

Lemma last_byte_nonempty (s : string) (c : ascii) :
  exists x, last_byte (String c s) = Some x.
Proof.
  revert c. induction s as [|d s IH]; intros c; [by exists c |].
  destruct (IH d) as [x Hx]. exists x. exact Hx.
Qed.

Lemma slice_last (s : string) (c : ascii) :
  slice_from (String.length s) (String c s)
  = String (default c (last_byte s)) "".
Proof.
  revert c. induction s as [|d s IH]; intros c.
  - reflexivity.
  - specialize (IH d). unfold slice_from in *. simpl in *.
    rewrite IH. destruct s as [|e s]; [done |].
    destruct (last_byte_nonempty s e) as [x Hx]. by rewrite Hx.
Qed.

Lemma HasPrefix_slash (s : string) : HasPrefix s "/" = starts_with_slash s.
Proof.
  unfold HasPrefix, starts_with_slash, slice_to.
  destruct s as [|c s]; simpl; [done |].
  rewrite substring_0_0. simpl.
  destruct (Ascii.eqb_spec c "/") as [->|Hne].
  - by rewrite bool_decide_eq_true_2.
  - rewrite bool_decide_eq_false_2; [done | congruence].
Qed.

Lemma HasSuffix_slash (s : string) : HasSuffix s "/" = ends_with_slash s.
Proof.
  unfold HasSuffix, ends_with_slash.
  destruct s as [|c s]; [done |].
  assert (last_byte (String c s) = Some (default c (last_byte s))) as ->.
  { destruct s as [|d s]; [done |].
    destruct (last_byte_nonempty s d) as [x Hx].
    change (last_byte (String c (String d s))) with (last_byte (String d s)).
    by rewrite Hx. }
  change (String.length "/") with 1%nat.
  change (String.length (String c s)) with (S (String.length s)).
  replace (S (String.length s) - 1)%nat with (String.length s) by lia.
  rewrite slice_last.
  generalize (default c (last_byte s)). intros x. simpl.
  destruct (Ascii.eqb_spec x "/") as [->|Hne].
  - by rewrite bool_decide_eq_true_2.
  - rewrite bool_decide_eq_false_2; [done | congruence].
Qed.

Lemma append_cons (c : ascii) (s t : string) : String c s +:+ t = String c (s +:+ t).
Proof. reflexivity. Qed.

Lemma append_assoc (s t u : string) : (s +:+ t) +:+ u = s +:+ t +:+ u.
Proof.
  induction s as [|c s IH]; [reflexivity |].
  by rewrite !append_cons, IH.
Qed.

Lemma drop_last_app (s : string) :
  ends_with_slash s = true -> drop_last s +:+ "/" = s.
Proof.
  unfold ends_with_slash. intros H%bool_decide_eq_true.
  induction s as [|c s IH]; [done |].
  destruct s as [|d s].
  - simpl in H. injection H as ->. reflexivity.
  - change (String c (drop_last (String d s) +:+ "/") = String c (String d s)).
    f_equal. by apply IH.
Qed.

(** C5. [combineURL] puts exactly one separator at the join: a base ending
    in a slash followed by an endpoint starting with one loses the
    endpoint's slash, a slash is inserted when neither has one, and the two
    are concatenated otherwise; so the result is always the base without
    its final slash, one slash, and the endpoint without its first slash.
    The two joins of the specification come out as stated. *)
Theorem combineURL_one_separator (B E : string) :
  combineURL B E =
    (match ends_with_slash B, starts_with_slash E with
     | true, true => B +:+ drop_first E
     | false, false => B +:+ "/" +:+ E
     | _, _ => B +:+ E
     end)
  /\ combineURL B E = chop_trailing_slash B +:+ "/" +:+ chop_leading_slash E
  /\ combineURL "https://localhost" "" = "https://localhost/"
  /\ combineURL "https://localhost/" "/" = "https://localhost/".
Proof.
  assert (combineURL B E =
    (match ends_with_slash B, starts_with_slash E with
     | true, true => B +:+ drop_first E
     | false, false => B +:+ "/" +:+ E
     | _, _ => B +:+ E
     end)) as Hcases.
  { unfold combineURL. rewrite HasSuffix_slash, HasPrefix_slash.
    destruct (ends_with_slash B), (starts_with_slash E) eqn:HE; try done.
    destruct E as [|c E]; [done |]. by rewrite slice_from_1. }
  split; [exact Hcases |]. split; [| by vm_compute].
  rewrite Hcases. unfold chop_trailing_slash, chop_leading_slash.
  destruct (ends_with_slash B) eqn:HB, (starts_with_slash E) eqn:HE.
  - by rewrite <- append_assoc, (drop_last_app B HB).
  - by rewrite <- append_assoc, (drop_last_app B HB).
  - unfold starts_with_slash in HE. apply bool_decide_eq_true in HE.
    destruct E as [|c E]; [done |]. simpl in HE. injection HE as ->.
    reflexivity.
  - done.
Qed.

(** ** The store of header maps *)

Lemma set_heap_same (w : World) : set_heap (heap w) w = w.
Proof. by destruct w. Qed.

Lemma set_heap_twice (h1 h2 : list HeaderMap) (w : World) :
  set_heap h2 (set_heap h1 w) = set_heap h2 w.
Proof. reflexivity. Qed.

Lemma allocated_lookup (w : World) (l : nat) :
  allocated w (Some l) -> heap w !! l = Some (contents w (Some l)).
Proof.
  simpl. intros Hl. destruct (lookup_lt_is_Some_2 (heap w) l Hl) as [m Hm].
  by rewrite Hm.
Qed.

(** Allocation leaves every map of the store as it was. *)
Lemma contents_after_alloc (w : World) (m : HeaderMap) (h : Header) :
  allocated w h -> contents (set_heap (heap w ++ [m]) w) h = contents w h.
Proof.
  destruct h as [l|]; [| done]. simpl. intros Hl. by rewrite lookup_app_l.
Qed.

Lemma contents_of_new (w : World) (m : HeaderMap) :
  contents (set_heap (heap w ++ [m]) w) (Some (length (heap w))) = m.
Proof. simpl. by rewrite list_lookup_middle. Qed.

Lemma Header_Clone_allocated (w : World) (h : Header) :
  allocated w h ->
  Header_Clone h w
  = Ret (Some (length (heap w))) (set_heap (heap w ++ [contents w h]) w).
Proof.
  destruct h as [l|]; [| done]. intros Hl. unfold Header_Clone.
  by rewrite (allocated_lookup w l Hl).
Qed.

Lemma Header_update_allocated (w : World) (l : nat) (f : HeaderMap -> HeaderMap) :
  allocated w (Some l) ->
  Header_update (Some l) f w
  = Ret tt (set_heap (<[l := f (contents w (Some l))]> (heap w)) w).
Proof.
  intros Hl. unfold Header_update. by rewrite (allocated_lookup w l Hl).
Qed.

Lemma contents_after_update (w : World) (l : nat) (m : HeaderMap) (h : Header) :
  allocated w (Some l) ->
  contents (set_heap (<[l := m]> (heap w)) w) h
  = if decide (h = Some l) then m else contents w h.
Proof.
  simpl. intros Hl. destruct h as [l'|]; [| by rewrite decide_False].
  destruct (decide (l' = l)) as [->|Hne].
  - rewrite decide_True by done. simpl. by rewrite list_lookup_insert_eq.
  - rewrite decide_False by congruence. simpl.
    by rewrite list_lookup_insert_ne.
Qed.

Lemma Header_SetAll_allocated (hs : list (string * string)) (w : World) (l : nat) :
  allocated w (Some l) ->
  Header_SetAll (Some l) hs w
  = Ret tt (set_heap
              (<[l := fold_left (fun m kv => set_value kv.1 kv.2 m) hs
                        (contents w (Some l))]> (heap w)) w).
Proof.
  revert w. induction hs as [|[k v] hs IH]; intros w Hl.
  - simpl fold_left. rewrite list_insert_id by by apply allocated_lookup.
    by rewrite set_heap_same.
  - change (Header_SetAll (Some l) ((k, v) :: hs) w)
      with (match Header_Set (Some l) k v w with
            | Ret _ w' => Header_SetAll (Some l) hs w'
            | Panic msg w' => Panic msg w'
            end).
    unfold Header_Set. rewrite Header_update_allocated by done.
    rewrite IH by (simpl; by rewrite length_insert).
    rewrite contents_after_update by done. rewrite decide_True by done.
    simpl heap. by rewrite list_insert_insert_eq.
Qed.

(** A header mutator on a builder with an allocated bag: one new map, a
    copy of the builder's with the operation applied, and a builder that
    refers to it. *)
Lemma apply_op_allocated (op : HeaderOp) (B : StreamRequester) (w : World) :
  allocated w (headers B) ->
  apply_op op B w
  = Ret {| cli := cli B; headers := Some (length (heap w)); timeout := timeout B |}
        (set_heap (heap w ++ [op_effect op (contents w (headers B))]) w).
Proof.
  intros HB.
  assert (forall f : HeaderMap -> HeaderMap,
    Header_update (Some (length (heap w))) f
      (set_heap (heap w ++ [contents w (headers B)]) w)
    = Ret tt (set_heap (heap w ++ [f (contents w (headers B))]) w)) as Hupd.
  { intros f. rewrite Header_update_allocated
      by (simpl; rewrite length_app; simpl; lia).
    rewrite contents_of_new. simpl heap.
    rewrite insert_app_r_alt by done. by rewrite Nat.sub_diag. }
  destruct op as [k v|k v|hs]; simpl;
    unfold StreamRequester_WithHeader, StreamRequester_WithUniqueHeader,
      StreamRequester_WithHeaders, StreamRequester_Clone, mbind, Go_bind, mret, Go_ret;
    rewrite Header_Clone_allocated by done; simpl headers.
  - unfold Header_Add. by rewrite Hupd.
  - unfold Header_Set. by rewrite Hupd.
  - rewrite Header_SetAll_allocated by (simpl; rewrite length_app; simpl; lia).
    rewrite contents_of_new. simpl heap.
    rewrite insert_app_r_alt by done. by rewrite Nat.sub_diag.
Qed.

(** ** Clone independence *)

(** One mutator call, seen from the store: the builder returned holds a
    map that did not exist before, and every map that existed reads as it
    did. *)
Lemma apply_op_frame (op : HeaderOp) (B : StreamRequester) (w : World) :
  allocated w (headers B) ->
  exists B' w',
    apply_op op B w = Ret B' w'
    /\ headers B' = Some (length (heap w))
    /\ length (heap w') = S (length (heap w))
    /\ cli B' = cli B /\ timeout B' = timeout B
    /\ contents w' (headers B') = op_effect op (contents w (headers B))
    /\ (forall h, allocated w h -> contents w' h = contents w h).
Proof.
  intros HB. eexists _, _. split; [by apply apply_op_allocated |].
  simpl headers. simpl cli. simpl timeout. repeat split.
  - simpl. rewrite length_app. simpl. lia.
  - apply contents_of_new.
  - intros h Hh. by apply contents_after_alloc.
Qed.

Lemma allocated_grows (w w' : World) (h : Header) :
  (length (heap w) <= length (heap w'))%nat -> allocated w h -> allocated w' h.
Proof. destruct h as [l|]; simpl; [lia | done]. Qed.

(** C1. Every header mutator returns a new builder over a new header bag
    and leaves the bags that existed, the receiver's among them, as they
    were.  Hence for two builders derived from the same parent, each holds
    the parent's headers with its own change, and neither the derivation of
    the other nor additions made later from either one alter what the
    parent or the sibling holds. *)
Theorem clone_independence (B : StreamRequester) (w : World)
    (op op' later later' : HeaderOp) :
  allocated w (headers B) ->
  exists B1 w1 B2 w2 B3 w3 B4 w4,
    apply_op op B w = Ret B1 w1
    /\ apply_op op' B w1 = Ret B2 w2
    /\ apply_op later B1 w2 = Ret B3 w3
    /\ apply_op later' B2 w3 = Ret B4 w4
    (* the receiver and every other bag of the store across one call *)
    /\ ~ allocated w (headers B1)
    /\ (forall h, allocated w h -> contents w1 h = contents w h)
    (* five builders, five bags *)
    /\ NoDup [headers B; headers B1; headers B2; headers B3; headers B4]
    (* the parent never changes *)
    /\ (forall k, Header_Values w1 (headers B) k = Header_Values w (headers B) k)
    /\ contents w4 (headers B) = contents w (headers B)
    (* each child: the parent's headers and its own change, for good *)
    /\ contents w1 (headers B1) = op_effect op (contents w (headers B))
    /\ contents w4 (headers B1) = contents w1 (headers B1)
    /\ contents w2 (headers B2) = op_effect op' (contents w (headers B))
    /\ contents w4 (headers B2) = contents w2 (headers B2).
Proof.
  intros HB.
  destruct (apply_op_frame op B w HB)
    as (B1 & w1 & E1 & H1 & L1 & _ & _ & C1 & F1).
  assert (allocated w1 (headers B)) as HB'
    by (eapply allocated_grows; [| exact HB]; lia).
  destruct (apply_op_frame op' B w1 HB')
    as (B2 & w2 & E2 & H2 & L2 & _ & _ & C2 & F2).
  assert (allocated w1 (headers B1)) as HB1 by (rewrite H1; simpl; lia).
  assert (allocated w2 (headers B1)) as HB1'
    by (eapply allocated_grows; [| exact HB1]; lia).
  destruct (apply_op_frame later B1 w2 HB1')
    as (B3 & w3 & E3 & H3 & L3 & _ & _ & C3 & F3).
  assert (allocated w2 (headers B2)) as HB2 by (rewrite H2; simpl; lia).
  assert (allocated w3 (headers B2)) as HB2'
    by (eapply allocated_grows; [| exact HB2]; lia).
  destruct (apply_op_frame later' B2 w3 HB2')
    as (B4 & w4 & E4 & H4 & L4 & _ & _ & C4 & F4).
  exists B1, w1, B2, w2, B3, w3, B4, w4.
  repeat match goal with |- _ /\ _ => split end; try assumption.
  - rewrite H1. simpl. lia.
  - rewrite H1, H2, H3, H4. destruct (headers B) as [l|]; [| done].
    simpl in HB. repeat (apply NoDup_cons; split); [.. | apply NoDup_nil_2];
      rewrite ?elem_of_cons, elem_of_nil; intros Hin;
      repeat (destruct Hin as [Hin|Hin]); try done; inversion Hin; lia.
  - intros k. unfold Header_Values. by rewrite F1.
  - rewrite F4, F3, F2, F1; try done.
    + eapply allocated_grows; [| exact HB]; lia.
    + eapply allocated_grows; [| exact HB]; lia.
  - rewrite F4, F3, F2; try done.
    eapply allocated_grows; [| exact HB1]; lia.
  - by rewrite C2, F1.
  - rewrite F4, F3; done.
Qed.

(** ** Appending and replacing *)

Lemma values_add_value (key v : string) (m : HeaderMap) :
  default [] (add_value key v m !! CanonicalMIMEHeaderKey key)
  = default [] (m !! CanonicalMIMEHeaderKey key) ++ [v].
Proof. unfold add_value. by rewrite lookup_insert_eq. Qed.

Lemma values_set_value (key v : string) (m : HeaderMap) :
  default [] (set_value key v m !! CanonicalMIMEHeaderKey key) = [v].
Proof. unfold set_value. by rewrite lookup_insert_eq. Qed.

Lemma WithHeader_values (B : StreamRequester) (w : World) (k v : string) :
  allocated w (headers B) ->
  exists B' w',
    StreamRequester_WithHeader B k v w = Ret B' w'
    /\ allocated w' (headers B')
    /\ Header_Values w' (headers B') k = Header_Values w (headers B) k ++ [v].
Proof.
  intros HB.
  destruct (apply_op_frame (OpWithHeader k v) B w HB)
    as (B' & w' & E & H' & L & _ & _ & C & _).
  exists B', w'. split; [exact E |]. split.
  - rewrite H'. simpl. lia.
  - unfold Header_Values. rewrite C. apply values_add_value.
Qed.

Lemma WithUniqueHeader_values (B : StreamRequester) (w : World) (k v : string) :
  allocated w (headers B) ->
  exists B' w',
    StreamRequester_WithUniqueHeader B k v w = Ret B' w'
    /\ allocated w' (headers B')
    /\ Header_Values w' (headers B') k = [v].
Proof.
  intros HB.
  destruct (apply_op_frame (OpWithUniqueHeader k v) B w HB)
    as (B' & w' & E & H' & L & _ & _ & C & _).
  exists B', w'. split; [exact E |]. split.
  - rewrite H'. simpl. lia.
  - unfold Header_Values. rewrite C. apply values_set_value.
Qed.

(** C9. [WithHeader(k, v)] appends: the values of [k] in the result are
    those of the receiver followed by [v], one more than before, and a
    second call appends again.  [WithUniqueHeader(k, v)] replaces: whatever
    [k] held, the result holds exactly [v], and after a further call with
    another value exactly that one. *)
Theorem WithHeader_appends_WithUniqueHeader_replaces
    (B : StreamRequester) (w : World) (k v1 v2 : string) :
  allocated w (headers B) ->
  exists Ba wa Baa waa Bu wu Bau wau Buu wuu,
    StreamRequester_WithHeader B k v1 w = Ret Ba wa
    /\ Header_Values wa (headers Ba) k = Header_Values w (headers B) k ++ [v1]
    /\ length (Header_Values wa (headers Ba) k)
       = S (length (Header_Values w (headers B) k))
    /\ StreamRequester_WithHeader Ba k v2 wa = Ret Baa waa
    /\ Header_Values waa (headers Baa) k = Header_Values w (headers B) k ++ [v1; v2]
    /\ StreamRequester_WithUniqueHeader B k v1 w = Ret Bu wu
    /\ Header_Values wu (headers Bu) k = [v1]
    /\ StreamRequester_WithUniqueHeader Ba k v2 wa = Ret Bau wau
    /\ Header_Values wau (headers Bau) k = [v2]
    /\ StreamRequester_WithUniqueHeader Bu k v2 wu = Ret Buu wuu
    /\ Header_Values wuu (headers Buu) k = [v2].
Proof.
  intros HB.
  destruct (WithHeader_values B w k v1 HB) as (Ba & wa & Ea & Ha & Va).
  destruct (WithHeader_values Ba wa k v2 Ha) as (Baa & waa & Eaa & _ & Vaa).
  destruct (WithUniqueHeader_values B w k v1 HB) as (Bu & wu & Eu & Hu & Vu).
  destruct (WithUniqueHeader_values Ba wa k v2 Ha) as (Bau & wau & Eau & _ & Vau).
  destruct (WithUniqueHeader_values Bu wu k v2 Hu) as (Buu & wuu & Euu & _ & Vuu).
  exists Ba, wa, Baa, waa, Bu, wu, Bau, wau, Buu, wuu.
  repeat match goal with |- _ /\ _ => split end; try assumption.
  - rewrite Va, length_app. simpl. lia.
  - by rewrite Vaa, Va, <- app_assoc.
Qed.

(** ** The client's default headers *)

Lemma Header_Add_allocated (w : World) (l : nat) (k v : string) :
  allocated w (Some l) ->
  Header_Add (Some l) k v w
  = Ret tt (set_heap (<[l := add_value k v (contents w (Some l))]> (heap w)) w).
Proof. apply Header_update_allocated. Qed.

Lemma Header_Set_allocated (w : World) (l : nat) (k v : string) :
  allocated w (Some l) ->
  Header_Set (Some l) k v w
  = Ret tt (set_heap (<[l := set_value k v (contents w (Some l))]> (heap w)) w).
Proof. apply Header_update_allocated. Qed.

Lemma retimed_Some (c : HttpClient) (t : Z) (w : World) :
  exists c', retimed (Some c) t w = Ret (Some c') w
             /\ Transport c' = Transport c
             /\ (0 < t -> Timeout c' = t).
Proof.
  unfold retimed. destruct (Z.ltb_spec 0 t) as [Ht|Ht].
  - destruct (Z.eqb_spec (Timeout c) t) as [Heq|Hne]; simpl.
    + exists c. by split_and!.
    + eexists. by split_and!.
  - exists c. split_and!; [done .. | lia].
Qed.

(** [NewCustomClient] on options whose headers are nil or a map of the
    store: the client it returns, and the world after it. *)
Lemma NewCustomClient_returns `{Runtime} (host0 : string) (options : ClientOptions)
    (w : World) :
  Headers options = None \/ allocated w (Headers options) ->
  exists c w',
    NewCustomClient host0 options w = Ret c w'
    /\ allocated w' (dheaders c)
    /\ is_Some (conn c)
    /\ middlewares c = Middlewares options
    /\ host c = host0
    /\ (allocated w (Headers options) -> dheaders c = Headers options)
    /\ contents w' (dheaders c)
       = add_value "User-Agent" userAgent (contents w (Headers options)).
Proof.
  intros Hh. unfold NewCustomClient, ClientOptions_sanitize.
  set (t := if MaxRequestTimeout options =? 0 * Second then 5 * Second
            else MaxRequestTimeout options).
  set (c0 := match Conn options with
             | Some c => Some c
             | None => Some (NewConn (ConnOptions_WithTimeout
                          (ConnOptions_WithRequestTimeout DefaultConnOptions t) t))
             end).
  assert (exists c1, c0 = Some c1) as [c1 Hc1]
    by (subst c0; destruct (Conn options); eauto).
  destruct (Headers options) as [l|] eqn:Hl.
  - destruct Hh as [Hh|Hh]; [done |].
    unfold mbind, Go_bind, mret, Go_ret. simpl Headers.
    rewrite Header_Add_allocated by done. simpl Conn. simpl MaxRequestTimeout.
    rewrite Hc1.
    destruct (retimed_Some c1 t
      (set_heap (<[l := add_value "User-Agent" userAgent (contents w (Some l))]> (heap w)) w))
      as (c' & -> & _ & _).
    eexists _, _. split; [reflexivity |]. simpl. rewrite length_insert.
    split_and!; [exact Hh | by eexists | done .. |].
    by rewrite list_lookup_insert_eq.
  - unfold mbind, Go_bind, mret, Go_ret, alloc. simpl Headers.
    rewrite Header_Add_allocated by (simpl; rewrite length_app; simpl; lia).
    simpl Conn. simpl MaxRequestTimeout. rewrite Hc1.
    match goal with |- context [retimed (Some c1) t ?w0] =>
      destruct (retimed_Some c1 t w0) as (c' & -> & _ & _) end.
    eexists _, _. split; [reflexivity |]. simpl.
    rewrite length_insert, length_app. simpl.
    split_and!; [lia | by eexists | done .. |].
    rewrite list_lookup_insert_eq by (rewrite length_app; simpl; lia).
    simpl. by rewrite list_lookup_middle.
Qed.

(** C10. [NewCustomClient] adds the derived User-Agent with [Add]: the
    client's default headers hold the values the options had under
    User-Agent followed by the derived one, one more than before; and when
    the caller supplied a header map the client keeps that very map, so
    the caller's map shows the new value too. *)
Theorem NewCustomClient_appends_user_agent `{Runtime}
    (host0 : string) (options : ClientOptions) (w : World) :
  Headers options = None \/ allocated w (Headers options) ->
  exists c w',
    NewCustomClient host0 options w = Ret c w'
    /\ Header_Values w' (dheaders c) "User-Agent"
       = Header_Values w (Headers options) "User-Agent" ++ [userAgent]
    /\ length (Header_Values w' (dheaders c) "User-Agent")
       = S (length (Header_Values w (Headers options) "User-Agent"))
    /\ (allocated w (Headers options) ->
        dheaders c = Headers options
        /\ Header_Values w' (Headers options) "User-Agent"
           = Header_Values w (Headers options) "User-Agent" ++ [userAgent]).
Proof.
  intros Hh.
  destruct (NewCustomClient_returns host0 options w Hh)
    as (c & w' & E & _ & _ & _ & _ & Href & C).
  assert (Header_Values w' (dheaders c) "User-Agent"
          = Header_Values w (Headers options) "User-Agent" ++ [userAgent]) as V.
  { unfold Header_Values. rewrite C. apply values_add_value. }
  exists c, w'. split; [exact E |]. split; [exact V |]. split.
  - rewrite V, length_app. simpl. lia.
  - intros Ha. split; [by apply Href |]. rewrite <- V. by rewrite (Href Ha).
Qed.

(** ** Builders made by the factories *)

Lemma set_heap_insert_twice (w : World) (l : nat) (m m' : HeaderMap) :
  set_heap (<[l := m']> (heap (set_heap (<[l := m]> (heap w)) w)))
    (set_heap (<[l := m]> (heap w)) w)
  = set_heap (<[l := m']> (heap w)) w.
Proof. unfold set_heap. simpl. by rewrite list_insert_insert_eq. Qed.

Lemma set_heap_insert_contents (w : World) (l : nat) :
  allocated w (Some l) ->
  set_heap (<[l := contents w (Some l)]> (heap w)) w = w.
Proof.
  intros Hl. rewrite list_insert_id by by apply allocated_lookup.
  apply set_heap_same.
Qed.

(** A request option writes the builder's own header map and nothing
    else. *)
Lemma apply_option_allocated (opt : RequestOption) (req : StreamRequester)
    (w : World) (l : nat) :
  headers req = Some l -> allocated w (Some l) ->
  exists req' m,
    apply_option opt req w = Ret req' (set_heap (<[l := m]> (heap w)) w)
    /\ headers req' = Some l /\ cli req' = cli req.
Proof.
  intros Hreq Hl.
  destruct opt as [t|hs|k v|k v|k v]; simpl;
    unfold mbind, Go_bind, mret, Go_ret; rewrite ?Hreq.
  - exists (StreamRequester_WithTimeout req t), (contents w (Some l)).
    by rewrite set_heap_insert_contents.
  - rewrite Header_SetAll_allocated by done. by eexists _, _.
  - rewrite Header_Add_allocated by done. by eexists _, _.
  - rewrite Header_Set_allocated by done. by eexists _, _.
  - destruct (negb _).
    + exists req, (contents w (Some l)). by rewrite set_heap_insert_contents.
    + rewrite Header_Set_allocated by done. by eexists _, _.
Qed.

Lemma apply_options_allocated (opts : list RequestOption) (req : StreamRequester)
    (w : World) (l : nat) :
  headers req = Some l -> allocated w (Some l) ->
  exists req' m,
    apply_options opts req w = Ret req' (set_heap (<[l := m]> (heap w)) w)
    /\ headers req' = Some l /\ cli req' = cli req.
Proof.
  revert req w. induction opts as [|opt opts IH]; intros req w Hreq Hl.
  - exists req, (contents w (Some l)).
    by rewrite set_heap_insert_contents.
  - destruct (apply_option_allocated opt req w l Hreq Hl)
      as (req1 & m1 & E1 & H1 & C1).
    destruct (IH req1 (set_heap (<[l := m1]> (heap w)) w) H1)
      as (req2 & m2 & E2 & H2 & C2).
    { simpl. by rewrite length_insert. }
    exists req2, m2. simpl. unfold mbind, Go_bind.
    rewrite E1, E2, set_heap_insert_twice. split_and!; congruence.
Qed.

Lemma insert_new (w : World) (m m' : HeaderMap) :
  set_heap (<[length (heap w) := m']> (heap (set_heap (heap w ++ [m]) w)))
    (set_heap (heap w ++ [m]) w)
  = set_heap (heap w ++ [m']) w.
Proof.
  unfold set_heap. simpl. rewrite insert_app_r_alt by done.
  by rewrite Nat.sub_diag.
Qed.

Lemma allocated_new (w : World) (m : HeaderMap) :
  allocated (set_heap (heap w ++ [m]) w) (Some (length (heap w))).
Proof. simpl. rewrite length_app. simpl. lia. Qed.

Lemma NewStreamRequest_allocated (c : Client) (opts : list RequestOption) (w : World) :
  allocated w (dheaders c) ->
  exists r m,
    Client_NewStreamRequest c opts w = Ret r (set_heap (heap w ++ [m]) w)
    /\ headers r = Some (length (heap w)) /\ cli r = c.
Proof.
  intros Hc. unfold Client_NewStreamRequest, mbind, Go_bind.
  rewrite Header_Clone_allocated by done.
  destruct (apply_options_allocated opts
              {| cli := c; headers := Some (length (heap w)); timeout := 0 |}
              (set_heap (heap w ++ [contents w (dheaders c)]) w)
              (length (heap w)) eq_refl (allocated_new _ _))
    as (r & m & E & Hr & Cr).
  exists r, m. by rewrite E, insert_new.
Qed.

Lemma NewJSONRequest_allocated (c : Client) (opts : list RequestOption) (w : World) :
  allocated w (dheaders c) ->
  exists J m,
    Client_NewJSONRequest c opts w
    = Ret J (set_heap (heap w ++ [set_value "Content-Type" "application/json" m]) w)
    /\ json_headers J = Some (length (heap w))
    /\ cli (core (json_core J)) = c.
Proof.
  intros Hc.
  destruct (NewStreamRequest_allocated c opts w Hc) as (r & m & E & Hr & Cr).
  exists {| json_core := {| core := r |} |}, m.
  unfold Client_NewJSONRequest, Client_NewRequest, mbind, Go_bind, mret, Go_ret.
  rewrite E. simpl core. rewrite Hr.
  rewrite Header_Set_allocated by apply allocated_new.
  rewrite contents_of_new, insert_new. by split_and!.
Qed.

(** The builders the statements are about exist: a client made by
    [NewCustomClient] hands out builders whose header bag is a map of the
    store and which pass [validate]. *)
Lemma factory_builder_allocated `{Runtime} (host0 : string) (options : ClientOptions)
    (opts : list RequestOption) (w : World) :
  Headers options = None \/ allocated w (Headers options) ->
  exists c w1 r w2,
    NewCustomClient host0 options w = Ret c w1
    /\ Client_NewStreamRequest c opts w1 = Ret r w2
    /\ allocated w2 (headers r)
    /\ StreamRequester_validate r = None.
Proof.
  intros Hh.
  destruct (NewCustomClient_returns host0 options w Hh)
    as (c & w1 & E & Hc & [c0 Hconn] & _).
  destruct (NewStreamRequest_allocated c opts w1 Hc) as (r & m & Er & Hr & Cr).
  exists c, w1, r, (set_heap (heap w1 ++ [m]) w1). split_and!; [done .. | |].
  - rewrite Hr. apply allocated_new.
  - unfold StreamRequester_validate. by rewrite Cr, Hconn.
Qed.

(** The zero value is not one of them: its header map is nil, and the
    mutators that write a key panic, leaving the world as it was. *)
Lemma zero_builder_panics (k v : string) (w : World) :
  StreamRequester_WithHeader zero_StreamRequester k v w
    = Panic "assignment to entry in nil map" w
  /\ StreamRequester_WithUniqueHeader zero_StreamRequester k v w
     = Panic "assignment to entry in nil map" w
  /\ StreamRequester_WithHeaders zero_StreamRequester [(k, v)] w
     = Panic "assignment to entry in nil map" w.
Proof. by split_and!. Qed.

(** ** The content type of a JSON builder *)

Lemma add_value_other (k v key : string) (m : HeaderMap) :
  CanonicalMIMEHeaderKey k <> CanonicalMIMEHeaderKey key ->
  add_value k v m !! CanonicalMIMEHeaderKey key = m !! CanonicalMIMEHeaderKey key.
Proof. intros Hne. unfold add_value. by rewrite lookup_insert_ne. Qed.

Lemma set_value_other (k v key : string) (m : HeaderMap) :
  CanonicalMIMEHeaderKey k <> CanonicalMIMEHeaderKey key ->
  set_value k v m !! CanonicalMIMEHeaderKey key = m !! CanonicalMIMEHeaderKey key.
Proof. intros Hne. unfold set_value. by rewrite lookup_insert_ne. Qed.

Lemma set_values_other (hs : list (string * string)) (key : string) (m : HeaderMap) :
  Forall (fun k => CanonicalMIMEHeaderKey k <> CanonicalMIMEHeaderKey key) hs.*1 ->
  fold_left (fun m kv => set_value kv.1 kv.2 m) hs m !! CanonicalMIMEHeaderKey key
  = m !! CanonicalMIMEHeaderKey key.
Proof.
  revert m. induction hs as [|[k v] hs IH]; intros m Hks; [done |].
  inversion Hks as [|? ? Hk Hrest]; subst. simpl.
  rewrite IH by done. by apply set_value_other.
Qed.

(** One [With*] call on a JSON builder; the values of a key it spares are
    those of the receiver. *)
Lemma apply_json_op_spared (key : string) (op : JSONOp) (J : JSONRequester) (w : World) :
  allocated w (json_headers J) ->
  exists J' w',
    apply_json_op op J w = Ret J' w'
    /\ allocated w' (json_headers J')
    /\ (spares key op ->
        Header_Values w' (json_headers J') key = Header_Values w (json_headers J) key).
Proof.
  intros HJ. unfold json_headers in *.
  assert (forall hop : HeaderOp,
    exists B' w', apply_op hop (core (json_core J)) w = Ret B' w'
      /\ allocated w' (headers B')
      /\ Header_Values w' (headers B') key
         = default [] (op_effect hop (contents w (headers (core (json_core J))))
                         !! CanonicalMIMEHeaderKey key)) as Hstep.
  { intros hop.
    destruct (apply_op_frame hop _ w HJ) as (B' & w' & E & H' & L & _ & _ & C & _).
    exists B', w'. split; [exact E |]. split.
    - rewrite H'. simpl. lia.
    - unfold Header_Values. by rewrite C. }
  destruct op as [t|k v|k v|hs].
  - exists (JSONRequester_WithTimeout J t), w. by split_and!.
  - destruct (Hstep (OpWithHeader k v)) as (B' & w' & E & HB' & V).
    exists {| json_core := {| core := B' |} |}, w'. simpl in E |- *.
    unfold JSONRequester_WithHeader, Requester_WithHeader, mbind, Go_bind, mret, Go_ret.
    rewrite E. split_and!; [done .. |].
    intros Hs. unfold spares in Hs. simpl in Hs. rewrite Forall_singleton in Hs.
    rewrite V. unfold Header_Values. simpl. by rewrite (add_value_other _ _ _ _ Hs).
  - destruct (Hstep (OpWithUniqueHeader k v)) as (B' & w' & E & HB' & V).
    exists {| json_core := {| core := B' |} |}, w'. simpl in E |- *.
    unfold JSONRequester_WithUniqueHeader, Requester_WithUniqueHeader,
      mbind, Go_bind, mret, Go_ret.
    rewrite E. split_and!; [done .. |].
    intros Hs. unfold spares in Hs. simpl in Hs. rewrite Forall_singleton in Hs.
    rewrite V. unfold Header_Values. simpl. by rewrite (set_value_other _ _ _ _ Hs).
  - destruct (Hstep (OpWithHeaders hs)) as (B' & w' & E & HB' & V).
    exists {| json_core := {| core := B' |} |}, w'. simpl in E |- *.
    unfold JSONRequester_WithHeaders, Requester_WithHeaders,
      mbind, Go_bind, mret, Go_ret.
    rewrite E. split_and!; [done .. |].
    intros Hs. unfold spares in Hs. simpl in Hs.
    rewrite V. unfold Header_Values. simpl.
    by rewrite (set_values_other _ _ _ Hs).
Qed.

Lemma apply_json_ops_spared (key : string) (ops : list JSONOp) (J : JSONRequester)
    (w : World) :
  allocated w (json_headers J) ->
  Forall (spares key) ops ->
  exists J' w',
    apply_json_ops ops J w = Ret J' w'
    /\ Header_Values w' (json_headers J') key = Header_Values w (json_headers J) key.
Proof.
  revert J w. induction ops as [|op ops IH]; intros J w HJ Hops.
  - by exists J, w.
  - inversion Hops as [|? ? Hop Hrest]; subst.
    destruct (apply_json_op_spared key op J w HJ) as (J1 & w1 & E1 & HJ1 & V1).
    destruct (IH J1 w1 HJ1 Hrest) as (J2 & w2 & E2 & V2).
    exists J2, w2. simpl. unfold mbind, Go_bind. rewrite E1, E2.
    split; [done |]. by rewrite V2, V1.
Qed.

(** C4, as the code has it.  A builder made by [NewJSONRequest] holds
    exactly one Content-Type value, application/json, whatever options the
    factory was given; and it still holds exactly that value after any
    sequence of [With*] calls none of which writes a key whose canonical
    form is Content-Type. *)
Theorem json_content_type_unless_overwritten (c : Client) (opts : list RequestOption)
    (ops : list JSONOp) (w : World) :
  allocated w (dheaders c) ->
  Forall (spares "Content-Type") ops ->
  exists J w1 J' w',
    Client_NewJSONRequest c opts w = Ret J w1
    /\ Header_Values w1 (json_headers J) "Content-Type" = ["application/json"]
    /\ apply_json_ops ops J w1 = Ret J' w'
    /\ Header_Values w' (json_headers J') "Content-Type" = ["application/json"].
Proof.
  intros Hc Hops.
  destruct (NewJSONRequest_allocated c opts w Hc) as (J & m & E & HJ & _).
  set (w1 := set_heap (heap w ++ [set_value "Content-Type" "application/json" m]) w) in *.
  assert (Header_Values w1 (json_headers J) "Content-Type" = ["application/json"]) as V.
  { unfold Header_Values. rewrite HJ. subst w1. rewrite contents_of_new.
    apply values_set_value. }
  assert (allocated w1 (json_headers J)) as HJ1
    by (rewrite HJ; apply allocated_new).
  destruct (apply_json_ops_spared "Content-Type" ops J w1 HJ1 Hops)
    as (J' & w' & E' & V').
  exists J, w1, J', w'. split_and!; [done .. |]. by rewrite V'.
Qed.

(** ** [Prepare]: headers and middlewares *)

Lemma run_middlewares_chain (ctx : option Context) (pre rest : list RequestMiddleware)
    (i : nat) (hreq hreq1 : option HttpRequest) (w w1 : World) :
  chain ctx pre hreq w hreq1 w1 ->
  run_middlewares ctx (pre ++ rest) i hreq w
  = run_middlewares ctx rest (i + length pre)%nat hreq1 w1.
Proof.
  intros Hc. revert i. induction Hc as [hreq w|mw mws hreq w hreq1 w1 hreq2 w2 Hmw _ IH];
    intros i.
  - simpl. by rewrite Nat.add_0_r.
  - simpl. unfold mbind, Go_bind. rewrite Hmw. simpl. rewrite IH.
    f_equal. lia.
Qed.

Lemma NewRequestWithContext_ok `{Runtime} (ctx : option Context) (method url : string)
    (body : option string) (w w0 : World) (r : HttpRequest) :
  http_NewRequestWithContext ctx method url body w = Ret (Some r, None) w0 ->
  w0 = set_heap (heap w ++ [∅]) w.
Proof.
  unfold http_NewRequestWithContext.
  destruct (request_error ctx method url), ctx; try (intros [=]; fail).
  unfold mbind, Go_bind, alloc, mret, Go_ret. by intros [= _ <-].
Qed.

(** C6. Once the request is built, [Prepare] gives it the builder's header
    bag itself, then runs the middlewares in the order of the list, each on
    the request the one before returned.  If all succeed the last request
    is the result.  If one fails, after those before it succeeded, the
    result is its error wrapped with its index and the world is the one it
    left: no middleware after it runs. *)
Theorem Prepare_middlewares_in_order `{Runtime} (req : StreamRequester)
    (ctx : option Context) (method endpoint : string) (body : option string)
    (w w0 : World) (r : HttpRequest) :
  is_Some (conn (cli req)) ->
  http_NewRequestWithContext ctx method (Client_FullURL (cli req) endpoint) body w
    = Ret (Some r, None) w0 ->
  let first := set_Header r (headers req) in
  ReqHeader first = headers req
  /\ (forall h, allocated w h -> contents w0 h = contents w h)
  /\ (forall hreq' w',
        chain ctx (middlewares (cli req)) (Some first) w0 hreq' w' ->
        StreamRequester_Prepare req ctx method endpoint body w = Ret (hreq', None) w')
  /\ (forall pre mw post hreq1 w1 hreq2 e w2,
        middlewares (cli req) = pre ++ mw :: post ->
        chain ctx pre (Some first) w0 hreq1 w1 ->
        mw ctx hreq1 w1 = Ret (hreq2, Some e) w2 ->
        StreamRequester_Prepare req ctx method endpoint body w
        = Ret (None,
               Some (Errorf_w ("failed to run middleware ["
                               +:+ format_d (length pre) +:+ "]; ") e)) w2).
Proof.
  intros [c Hc] Hnew first.
  assert (StreamRequester_Prepare req ctx method endpoint body w
          = run_middlewares ctx (middlewares (cli req)) 0 (Some first) w0) as HP.
  { unfold StreamRequester_Prepare, StreamRequester_validate.
    rewrite Hc. unfold mbind, Go_bind. by rewrite Hnew. }
  split; [done |]. split.
  { intros h Hh. rewrite (NewRequestWithContext_ok _ _ _ _ _ _ _ Hnew).
    by apply contents_after_alloc. }
  split.
  - intros hreq' w' Hchain. rewrite HP.
    rewrite <- (app_nil_r (middlewares (cli req))).
    by rewrite (run_middlewares_chain _ _ [] 0 _ _ _ _ Hchain).
  - intros pre mw post hreq1 w1 hreq2 e w2 Hsplit Hchain Hmw.
    rewrite HP, Hsplit.
    rewrite (run_middlewares_chain _ _ (mw :: post) 0 _ _ _ _ Hchain).
    simpl. unfold mbind, Go_bind. by rewrite Hmw.
Qed.

(** ** The context of a call *)

Lemma Context_returns (req : StreamRequester) (parent : option Context) (w : World) :
  exists ctx cancel,
    StreamRequester_Context req parent w = Ret (ctx, cancel) w
    /\ (cancel = None <-> timeout req <= 0).
Proof.
  unfold StreamRequester_Context, context_WithTimeout.
  destruct (Z.ltb_spec 0 (timeout req)).
  - eexists _, _. split; [reflexivity |]. split; [done | lia].
  - eexists _, _. split; [reflexivity |]. split; [lia | done].
Qed.

(** C3, as the code has it.  [Context] takes [Background] for a nil parent.
    With a positive timeout it returns that parent wrapped with the
    deadline now + timeout, which is the deadline in force unless the
    parent had an earlier one, and the function that cancels the wrapper.
    Otherwise it returns that parent and the nil cancel function, which
    cannot be called.  The world is left as it was. *)
Theorem Context_deadline_or_nil_cancel (req : StreamRequester)
    (parent : option Context) (w : World) :
  let ctx := default Background parent in
  (0 < timeout req ->
     let child := WithDeadline ctx (clock w + timeout req) in
     StreamRequester_Context req parent w = Ret (child, Some child) w
     /\ (Deadline ctx = None -> Deadline child = Some (clock w + timeout req))
     /\ (forall d, Deadline ctx = Some d ->
           Deadline child = Some (Z.min d (clock w + timeout req)))
     /\ value_of (call_cancel (Some child) w) = Some tt)
  /\ (timeout req <= 0 ->
      StreamRequester_Context req parent w = Ret (ctx, None) w
      /\ value_of (call_cancel None w) = None).
Proof.
  intros ctx. unfold StreamRequester_Context, context_WithTimeout.
  fold ctx. split; intros Ht.
  - destruct (Z.ltb_spec 0 (timeout req)); [| lia].
    split_and!; [done | | | done].
    + simpl. by intros ->.
    + simpl. by intros d ->.
  - destruct (Z.ltb_spec 0 (timeout req)); [lia |]. by destruct parent.
Qed.

(** ** The buffered [Do] *)

(** C7. The buffered [Do] first derives the call's context.  If [Prepare]
    fails, or the transport does, it returns status 0, no body and the
    error.  If the transport answered and reading the body fails, it returns
    the status of the answer together with the read error (and no body);
    the body has been closed.  If the body is read, it returns the status
    and the bytes. *)
Theorem Requester_Do_results `{Runtime} (req : Requester) (parent : option Context)
    (method endpoint data : string) (w : World) :
  exists ctx cancel,
    StreamRequester_Context (core req) parent w = Ret (ctx, cancel) w
    /\ (forall hreq e w1,
          StreamRequester_Prepare (core req) (Some ctx) method endpoint (Some data) w
            = Ret (hreq, Some e) w1 ->
          exists w',
            Requester_Do req parent method endpoint data w
            = Ret (0, None, Some (Errorf_w "error creating request; " e)) w'
            /\ wire w' = wire w1 /\ closed w' = closed w1)
    /\ (forall hreq c w1,
          StreamRequester_Prepare (core req) (Some ctx) method endpoint (Some data) w
            = Ret (hreq, None) w1 ->
          conn (cli (core req)) = Some c ->
          (forall e w2,
             HttpClient_Do c hreq w1 = Ret (None, Some e) w2 ->
             exists w',
               Requester_Do req parent method endpoint data w
               = Ret (0, None, Some (Errorf_w "error running request; " e)) w'
               /\ wire w' = wire w2 /\ closed w' = closed w2)
          /\ (forall res e w2,
                HttpClient_Do c hreq w1 = Ret (Some res, None) w2 ->
                read_err (RespBody res) = Some e ->
                exists w',
                  Requester_Do req parent method endpoint data w
                  = Ret (StatusCode res, None,
                         Some (Errorf_w "error reading http body; " e)) w'
                  /\ wire w' = wire w2 /\ closed w' = S (closed w2))
          /\ (forall res w2,
                HttpClient_Do c hreq w1 = Ret (Some res, None) w2 ->
                read_err (RespBody res) = None ->
                exists w',
                  Requester_Do req parent method endpoint data w
                  = Ret (StatusCode res, Some (content (RespBody res)), None) w'
                  /\ wire w' = wire w2 /\ closed w' = S (closed w2))).
Proof.
  destruct (Context_returns (core req) parent w) as (ctx & cancel & EC & _).
  exists ctx, cancel. split; [exact EC |].
  assert (forall (A : Type) (a : A) (w0 : World),
    exists w', (_ ← match cancel with
                    | None => mret tt
                    | Some _ => call_cancel cancel
                    end; mret a) w0 = Ret a w'
               /\ wire w' = wire w0 /\ closed w' = closed w0) as Hdefer.
  { intros A a w0. destruct cancel; by eexists. }
  split.
  - intros hreq e w1 EP.
    destruct (Hdefer _ (0, @None string, Some (Errorf_w "error creating request; " e)) w1)
      as (w' & E' & Hw).
    exists w'. split; [| exact Hw].
    unfold Requester_Do, StreamRequester_Do, mbind, Go_bind in *.
    rewrite EC, EP. simpl. exact E'.
  - intros hreq c w1 EP Hc. split_and!.
    + intros e w2 ED.
      destruct (Hdefer _ (0, @None string, Some (Errorf_w "error running request; " e)) w2)
        as (w' & E' & Hw).
      exists w'. split; [| exact Hw].
      unfold Requester_Do, StreamRequester_Do, mbind, Go_bind in *.
      rewrite EC, EP, Hc, ED. simpl. exact E'.
    + intros res e w2 ED Hread.
      destruct (Hdefer _ (StatusCode res, @None string,
                          Some (Errorf_w "error reading http body; " e))
                  (set_closed (S (closed w2)) w2)) as (w' & E' & Hw).
      exists w'. split; [| exact Hw].
      unfold Requester_Do, StreamRequester_Do, mbind, Go_bind in *.
      rewrite EC, EP, Hc, ED. simpl. rewrite Hread. exact E'.
    + intros res w2 ED Hread.
      destruct (Hdefer _ (StatusCode res, Some (content (RespBody res)), @None GoError)
                  (set_closed (S (closed w2)) w2)) as (w' & E' & Hw).
      exists w'. split; [| exact Hw].
      unfold Requester_Do, StreamRequester_Do, mbind, Go_bind in *.
      rewrite EC, EP, Hc, ED. simpl. rewrite Hread. exact E'.
Qed.

(** ** The JSON builder and its encoder *)

(** C8. When [json.Marshal] fails on the payload, [Prepare] and [Do] of the
    JSON builder return its error, wrapped, with no request, status 0 and
    no body; the world is the one they started in, so nothing was sent
    through the transport. *)
Theorem JSON_encoding_error_before_network `{Runtime} (req : JSONRequester)
    (ctx : option Context) (method endpoint : string) (data : Data) (w : World)
    (ebody : string) (e : GoError) :
  json_Marshal data = (ebody, Some e) ->
  JSONRequester_Prepare req ctx method endpoint data w
    = Ret (None, Some (Errorf_w "invalid request body; " e)) w
  /\ JSONRequester_Do req ctx method endpoint data w
     = Ret (0, None, Some (Errorf_w "invalid request body; " e)) w
  /\ wire (world_of (JSONRequester_Do req ctx method endpoint data w)) = wire w
  /\ wire (world_of (JSONRequester_Prepare req ctx method endpoint data w)) = wire w.
Proof.
  intros HM. unfold JSONRequester_Prepare, JSONRequester_Do. by rewrite HM.
Qed.

(** ** Replaying a builder *)

(** C2, on the code.  With the header-adding middleware of the package's
    own test registered, the builder's header bag is the request's: the
    first [Do] leaves the value "mv" in the builder, the second sends it
    twice.  The builder holds no value of the key before the calls, one
    after the first and two after the second, and the transport receives
    one value, then two. *)
Theorem Do_twice_with_header_middleware :
  value_of (replay [add_mh] "mh" empty_world)
  = Some ([[]; ["mv"]; ["mv"; "mv"]],
          [(200, Some "ok", None); (200, Some "ok", None)],
          [["mv"]; ["mv"; "mv"]]).
Proof. vm_compute. reflexivity. Qed.

(** Without middlewares the two calls are alike and the builder keeps its
    headers. *)
Example Do_twice_without_middleware :
  value_of (replay [] "User-Agent" empty_world)
  = Some ([["go-webservice/v0/system/component"];
           ["go-webservice/v0/system/component"];
           ["go-webservice/v0/system/component"]],
          [(200, Some "ok", None); (200, Some "ok", None)],
          [["go-webservice/v0/system/component"];
           ["go-webservice/v0/system/component"]]).
Proof. vm_compute. reflexivity. Qed.

(** For a client without middlewares [Do] writes no header map: whatever
    it returns, every map of the store reads as before. *)
Lemma Do_without_middlewares_frame `{Runtime} (req : StreamRequester)
    (ctx : option Context) (method endpoint : string) (body : option string)
    (w : World) (h : Header) :
  middlewares (cli req) = [] ->
  allocated w h ->
  contents (world_of (StreamRequester_Do req ctx method endpoint body w)) h
  = contents w h.
Proof.
  intros Hm Hh.
  unfold StreamRequester_Do, StreamRequester_Prepare, StreamRequester_validate,
    http_NewRequestWithContext, mbind, Go_bind, mret, Go_ret.
  destruct (conn (cli req)) as [c|]; [| done].
  destruct (request_error ctx method (Client_FullURL (cli req) endpoint)); [done |].
  destruct ctx as [c0|]; [| done].
  unfold alloc. rewrite Hm. simpl. unfold HttpClient_Do.
  destruct (Transport c _ _); simpl; destruct h as [l|]; try done;
    simpl in Hh |- *; by rewrite lookup_app_l.
Qed.

(** ** Where the code departs from the sentences *)

Example second_content_type :
  value_of (json_with_second_content_type "application/json" empty_world)
  = Some ["application/json"; "application/json"]
  /\ value_of (json_with_second_content_type "text/plain" empty_world)
     = Some ["application/json"; "text/plain"].
Proof. split; vm_compute; reflexivity. Qed.

(** C4, as written, fails: [WithHeader("Content-Type", "application/json")]
    on a new JSON builder leaves it with two Content-Type values. *)
Lemma content_type_doubled_by_WithHeader : ~ content_type_survives_every_op.
Proof.
  intros Hclaim.
  destruct (@NewCustomClient_returns sample_runtime sample_host (with_middlewares [])
              empty_world (or_introl eq_refl)) as (c & w & _ & Hc & _).
  destruct (NewJSONRequest_allocated c [] w Hc) as (J & m & EJ & HJ & _).
  set (w1 := set_heap (heap w ++ [set_value "Content-Type" "application/json" m]) w) in *.
  assert (allocated w1 (json_headers J)) as HJ1 by (rewrite HJ; apply allocated_new).
  assert (Header_Values w1 (json_headers J) "Content-Type" = ["application/json"]) as V.
  { unfold Header_Values. rewrite HJ. subst w1. rewrite contents_of_new.
    apply values_set_value. }
  destruct (WithHeader_values (core (json_core J)) w1 "Content-Type" "application/json" HJ1)
    as (B' & w' & E & _ & V').
  specialize (Hclaim c [] [JWithHeader "Content-Type" "application/json"] w w1 w' J
                {| json_core := {| core := B' |} |} Hc EJ).
  unfold json_headers in *. simpl in Hclaim.
  unfold JSONRequester_WithHeader, Requester_WithHeader, mbind, Go_bind, mret, Go_ret
    in Hclaim.
  rewrite E in Hclaim. specialize (Hclaim eq_refl).
  simpl in Hclaim. rewrite V', V in Hclaim. discriminate.
Qed.

(** C3, as written, fails on a builder without timeout: given a nil parent
    [Context] returns [Background], not the parent; and given any parent
    the cancel function it returns is nil, which cannot be called. *)
Lemma Context_nil_parent_nil_cancel :
  ~ Context_otherwise_returns_parent /\ ~ Context_otherwise_noop_cancel.
Proof.
  split; intros Hclaim.
  - destruct (Hclaim zero_StreamRequester None empty_world) as (ctx & cancel & _ & Hp).
    + simpl. lia.
    + discriminate.
  - destruct (Hclaim zero_StreamRequester (Some TODO) empty_world)
      as (ctx & cancel & E & Hcall).
    + simpl. lia.
    + injection E as <- <-. discriminate.
Qed.

(** ** The statements at the sample inputs *)

Lemma clone_independence_witness :
  allocated sample_world (headers sample_builder)
  /\ exists B1 w1 B2 w2 B3 w3 B4 w4,
       apply_op (OpWithHeader "h1" "v1") sample_builder sample_world = Ret B1 w1
       /\ apply_op (OpWithHeader "h1" "v2") sample_builder w1 = Ret B2 w2
       /\ apply_op (OpWithHeaders [("h2", "v1")]) B1 w2 = Ret B3 w3
       /\ apply_op (OpWithUniqueHeader "h2" "v2") B2 w3 = Ret B4 w4
       /\ contents w4 (headers sample_builder)
          = contents sample_world (headers sample_builder)
       /\ contents w4 (headers B1) = contents w1 (headers B1)
       /\ contents w4 (headers B2) = contents w2 (headers B2).
Proof.
  assert (allocated sample_world (headers sample_builder)) as HB
    by (vm_compute; lia).
  split; [exact HB |].
  destruct (clone_independence sample_builder sample_world
              (OpWithHeader "h1" "v1") (OpWithHeader "h1" "v2")
              (OpWithHeaders [("h2", "v1")]) (OpWithUniqueHeader "h2" "v2") HB)
    as (B1 & w1 & B2 & w2 & B3 & w3 & B4 & w4 & E1 & E2 & E3 & E4
        & _ & _ & _ & _ & FB & _ & F1 & _ & F2).
  exists B1, w1, B2, w2, B3, w3, B4, w4. by split_and!.
Defined.

Lemma WithHeader_appends_WithUniqueHeader_replaces_witness :
  allocated sample_world (headers sample_builder)
  /\ exists Ba wa Bu wu,
       StreamRequester_WithHeader sample_builder "User-Agent" "extra" sample_world
         = Ret Ba wa
       /\ Header_Values wa (headers Ba) "user-agent"
          = ["go-webservice/v0/system/component"; "extra"]
       /\ StreamRequester_WithUniqueHeader Ba "user-agent" "only" wa = Ret Bu wu
       /\ Header_Values wu (headers Bu) "User-Agent" = ["only"].
Proof.
  assert (allocated sample_world (headers sample_builder)) as HB
    by (vm_compute; lia).
  split; [exact HB |].
  destruct (WithHeader_appends_WithUniqueHeader_replaces sample_builder sample_world
              "User-Agent" "extra" "only" HB)
    as (Ba & wa & _ & _ & _ & _ & Bau & wau & _ & _
        & Ea & Va & _ & _ & _ & _ & _ & Eau & Vau & _ & _).
  exists Ba, wa, Bau, wau. split; [exact Ea |]. split; [exact Va |].
  split; [exact Eau | exact Vau].
Defined.

Lemma NewCustomClient_appends_user_agent_witness :
  allocated caller_world (Headers caller_options)
  /\ exists c w',
       @NewCustomClient sample_runtime sample_host caller_options caller_world = Ret c w'
       /\ dheaders c = Some 0%nat
       /\ Header_Values w' (Some 0%nat) "User-Agent"
          = ["curl/8.0"; "go-webservice/v0/system/component"].
Proof.
  assert (allocated caller_world (Headers caller_options)) as Ha
    by (simpl; lia).
  split; [exact Ha |].
  destruct (@NewCustomClient_appends_user_agent sample_runtime sample_host
              caller_options caller_world (or_intror Ha))
    as (c & w' & E & _ & _ & Hcaller).
  destruct (Hcaller Ha) as [Hd V].
  exists c, w'. split; [exact E |]. split; [exact Hd | exact V].
Defined.

Lemma json_content_type_unless_overwritten_witness :
  allocated sample_world (dheaders sample_client)
  /\ Forall (spares "Content-Type") test_json_ops
  /\ exists J w1 J' w',
       Client_NewJSONRequest sample_client
         [Client_RequestHeader "content-type" "text/plain"] sample_world = Ret J w1
       /\ apply_json_ops test_json_ops J w1 = Ret J' w'
       /\ Header_Values w' (json_headers J') "Content-Type" = ["application/json"].
Proof.
  assert (allocated sample_world (dheaders sample_client)) as Hc
    by (vm_compute; lia).
  assert (Forall (spares "Content-Type") test_json_ops) as Hops.
  { repeat constructor; intros Heq; vm_compute in Heq; discriminate. }
  split; [exact Hc |]. split; [exact Hops |].
  destruct (json_content_type_unless_overwritten sample_client
              [Client_RequestHeader "content-type" "text/plain"]
              test_json_ops sample_world Hc Hops)
    as (J & w1 & J' & w' & E & _ & E' & V').
  exists J, w1, J', w'. split; [exact E |]. split; [exact E' | exact V'].
Defined.

Lemma JSON_encoding_error_before_network_witness :
  @json_Marshal sample_runtime data_chan
    = ("", Some (errors_New "json: unsupported type: chan int"))
  /\ @JSONRequester_Do sample_runtime
       {| json_core := {| core := sample_builder |} |} (Some TODO) "POST" "/api" data_chan
       sample_world
     = Ret (0, None,
            Some (Errorf_w "invalid request body; "
                    (errors_New "json: unsupported type: chan int")))
           sample_world.
Proof.
  split; [reflexivity |].
  apply (@JSON_encoding_error_before_network sample_runtime
           {| json_core := {| core := sample_builder |} |} (Some TODO) "POST" "/api"
           data_chan sample_world "" (errors_New "json: unsupported type: chan int")
           eq_refl).
Defined.

Lemma Prepare_middlewares_in_order_witness :
  is_Some (conn (cli puff_builder))
  /\ @http_NewRequestWithContext sample_runtime (Some TODO) "GET"
       (Client_FullURL (cli puff_builder) "/t02") None puff_world
     = Ret (Some puff_request, None) (set_heap (heap puff_world ++ [∅]) puff_world)
  /\ exists w2,
       @StreamRequester_Prepare sample_runtime puff_builder (Some TODO) "GET" "/t02" None
         puff_world
       = Ret (None, Some (Errorf_w "failed to run middleware [1]; " (errors_New "puff"))) w2
       /\ Header_Values w2 (headers puff_builder) "mh" = ["mv"].
Proof.
  assert (is_Some (conn (cli puff_builder))) as Hc by (vm_compute; eauto).
  assert (@http_NewRequestWithContext sample_runtime (Some TODO) "GET"
            (Client_FullURL (cli puff_builder) "/t02") None puff_world
          = Ret (Some puff_request, None) (set_heap (heap puff_world ++ [∅]) puff_world))
    as Hn by (vm_compute; reflexivity).
  split; [exact Hc |]. split; [exact Hn |].
  pose proof (@Prepare_middlewares_in_order sample_runtime puff_builder (Some TODO)
                "GET" "/t02" None puff_world _ puff_request Hc Hn) as Hp.
  cbv zeta in Hp. destruct Hp as (_ & _ & _ & Herr).
  eexists. split.
  - eapply (Herr [add_mh] puff [add_mh]).
    + reflexivity.
    + eapply chain_cons; [reflexivity | apply chain_nil].
    + reflexivity.
  - vm_compute. reflexivity.
Defined.

Lemma Requester_Do_results_witness :
  exists w',
    @Requester_Do sample_runtime broken_body_builder (Some TODO) "GET" "/" ""
      broken_body_world
    = Ret (200, None,
           Some (Errorf_w "error reading http body; " (errors_New "unexpected EOF"))) w'
    /\ closed w' = 1%nat.
Proof.
  destruct (@Requester_Do_results sample_runtime broken_body_builder (Some TODO)
              "GET" "/" "" broken_body_world) as (ctx & cancel & EC & _ & Hok).
  assert (ctx = TODO) as -> by (vm_compute in EC; by injection EC as <- <-).
  edestruct Hok as (_ & Hread & _); [reflexivity | reflexivity |].
  edestruct Hread as (w' & E & _ & Hclosed); [reflexivity | reflexivity |].
  exists w'. split; [exact E |]. rewrite Hclosed. reflexivity.
Defined.

Lemma Context_deadline_or_nil_cancel_witness :
  0 < timeout timed_builder
  /\ StreamRequester_Context timed_builder (Some TODO) world_at_100
     = Ret (WithDeadline TODO 5000000100, Some (WithDeadline TODO 5000000100)) world_at_100
  /\ timeout sample_builder <= 0
  /\ StreamRequester_Context sample_builder None world_at_100
     = Ret (Background, None) world_at_100.
Proof.
  destruct (Context_deadline_or_nil_cancel timed_builder (Some TODO) world_at_100)
    as [Hpos _].
  destruct (Context_deadline_or_nil_cancel sample_builder None world_at_100)
    as [_ Hzero].
  assert (0 < timeout timed_builder) as Ht by (vm_compute; reflexivity).
  assert (timeout sample_builder <= 0) as Hs by (vm_compute; discriminate).
  split; [exact Ht |]. split; [exact (proj1 (Hpos Ht)) |].
  split; [exact Hs |]. exact (proj1 (Hzero Hs)).
Defined.

(** * Further properties *)

(** ** The URL join, continued *)

Lemma append_empty_r (s : string) : s +:+ "" = s.
Proof. induction s as [|c s IH]; [done |]. by rewrite append_cons, IH. Qed.

Lemma last_byte_append_slash (s : string) : last_byte (s +:+ "/") = Some "/"%char.
Proof.
  induction s as [|c s IH]; [done |].
  rewrite append_cons.
  destruct (s +:+ "/") as [|d t] eqn:E; [by destruct s |].
  exact IH.
Qed.

(** X1. Joining with the empty endpoint puts the base in the form that ends
    in a slash, and does so once: joining any endpoint to that form gives
    what joining it to the base gives.  The base is always a prefix of the
    join. *)
Theorem combineURL_normalises_base (B E : string) :
  ends_with_slash (combineURL B "") = true
  /\ combineURL (combineURL B "") "" = combineURL B ""
  /\ combineURL (combineURL B "") E = combineURL B E
  /\ exists rest, combineURL B E = B +:+ rest.
Proof.
  assert (forall X, ends_with_slash X = true -> combineURL X "" = X) as Hfix.
  { intros X HX. unfold combineURL. rewrite HasSuffix_slash, HX.
    simpl. apply append_empty_r. }
  assert (ends_with_slash (combineURL B "") = true) as Hends.
  { unfold combineURL. rewrite HasSuffix_slash.
    destruct (ends_with_slash B) eqn:HB; simpl.
    - by rewrite append_empty_r.
    - rewrite append_empty_r. unfold ends_with_slash.
      by rewrite last_byte_append_slash, bool_decide_eq_true_2. }
  split; [exact Hends |]. split; [by apply Hfix |]. split.
  - destruct (ends_with_slash B) eqn:HB.
    + by rewrite (Hfix B HB).
    + assert (combineURL B "" = B +:+ "/") as ->.
      { unfold combineURL. rewrite HasSuffix_slash, HB. simpl.
        by rewrite append_empty_r. }
      assert (ends_with_slash (B +:+ "/") = true) as HB'.
      { unfold ends_with_slash.
        by rewrite last_byte_append_slash, bool_decide_eq_true_2. }
      unfold combineURL. rewrite !HasSuffix_slash, HB, HB', HasPrefix_slash.
      destruct (starts_with_slash E) eqn:HE.
      * destruct E as [|c E]; [done |].
        unfold starts_with_slash in HE. apply bool_decide_eq_true in HE.
        simpl in HE. injection HE as ->.
        rewrite slice_from_1. by rewrite append_assoc.
      * by rewrite append_assoc.
  - unfold combineURL.
    destruct (HasSuffix B "/"), (HasPrefix E "/"); eauto.
Qed.

(** ** The user agent *)

(** X2. [userAgent] is never empty: it is the prefix go-webservice/v0, a
    slash and a non-empty identification, or it is UNKNOWN; and it is
    UNKNOWN exactly when USER_AGENT and SYSTEM are unset and the current
    user cannot be found or has neither name, user name nor home
    directory.  COMPONENT without SYSTEM counts for nothing. *)
Theorem userAgent_shape `{Runtime} :
  (userAgent = "UNKNOWN"
   \/ exists id, id <> "" /\ userAgent = httpAgentPrefix +:+ "/" +:+ id)
  /\ (userAgent = "UNKNOWN" <->
      os_Getenv "USER_AGENT" = "" /\ os_Getenv "SYSTEM" = ""
      /\ match user_Current with
         | inr _ => True
         | inl usr => Name usr = "" /\ Username usr = "" /\ HomeDir usr = ""
         end).
Proof.
  assert (forall id, httpAgentPrefix +:+ "/" +:+ id <> "UNKNOWN") as Hne
    by (intros id; discriminate).
  unfold userAgent.
  destruct (String.eqb_spec (os_Getenv "USER_AGENT") "") as [Hua|Hua]; simpl.
  2:{ split; [right; eauto |]. split; [by intros ?%Hne | by intros [? _]]. }
  destruct (String.eqb_spec (os_Getenv "SYSTEM") "") as [Hsys|Hsys]; simpl.
  2:{ destruct (String.eqb_spec (os_Getenv "COMPONENT") "") as [Hc|Hc]; simpl.
      - split; [right; eauto |]. split; [by intros ?%Hne | by intros (? & ? & _)].
      - split.
        + right. exists (os_Getenv "SYSTEM" +:+ "/" +:+ os_Getenv "COMPONENT").
          split; [by destruct (os_Getenv "SYSTEM") |].
          by rewrite !append_assoc.
        + rewrite append_assoc.
          split; [by intros ?%Hne | by intros (? & ? & _)]. }
  destruct user_Current as [usr|e]; [| by split; [left | split]].
  destruct (String.eqb_spec (Name usr) "") as [Hn|Hn]; simpl.
  2:{ split; [right; eauto |]. split; [by intros ?%Hne | by intros (_ & _ & ? & _)]. }
  destruct (String.eqb_spec (Username usr) "") as [Hu|Hu]; simpl.
  2:{ split; [right; eauto |].
      split; [by intros ?%Hne | by intros (_ & _ & _ & ? & _)]. }
  destruct (String.eqb_spec (HomeDir usr) "") as [Hh|Hh]; simpl.
  2:{ split; [right; eauto |].
      split; [by intros ?%Hne | by intros (_ & _ & _ & _ & ?)]. }
  split; [by left | by split].
Qed.

(** ** Integer query parameters *)

(** X3. [getIntQueryParam] returns the default or the parsed parameter, and
    the parameter only when it is not 0 and lies between [min] and [max]:
    a parameter that is missing, malformed, 0 or out of range gives the
    default, also when 0 is within range.  So the sampling rate that
    [handleProfile] reads with default 100 and range 1..100 is always
    between 1 and 100. *)
Theorem getIntQueryParam_default_or_in_range (c : EchoContext) (name : string)
    (def min max : Z) :
  let val := Atoi_value (QueryParam c name) in
  let r := getIntQueryParam c name def min max in
  (r = def \/ (r = val /\ val <> 0 /\ min <= val <= max))
  /\ (r = val <-> val = def \/ (val <> 0 /\ min <= val <= max))
  /\ 1 <= getIntQueryParam c "rate" 100 1 100 <= 100.
Proof.
  assert (forall name def min max,
    let val := Atoi_value (QueryParam c name) in
    let r := getIntQueryParam c name def min max in
    (r = def \/ (r = val /\ val <> 0 /\ min <= val <= max))
    /\ (r = val <-> val = def \/ (val <> 0 /\ min <= val <= max))) as Hgen.
  { clear. intros name def min max. cbv zeta. unfold getIntQueryParam.
    destruct (Z.eqb_spec (Atoi_value (QueryParam c name)) 0) as [H0|H0].
    - split; [by left |]. split; [intros ->; by left | intros [?|[? _]]; congruence].
    - destruct (Z.ltb_spec (Atoi_value (QueryParam c name)) min);
        destruct (Z.ltb_spec max (Atoi_value (QueryParam c name))); simpl;
        (split; [first [by left | right; split_and!; [done | done | lia | lia]] |]);
        split; try (intros ->; by left); try (intros [?|[_ ?]]; [congruence | lia]);
        intros _; right; split; [done | lia]. }
  cbv zeta. split; [apply Hgen |]. split; [apply Hgen |].
  destruct (Hgen "rate" 100 1 100) as [[->|(-> & _ & ?)] _]; lia.
Qed.

(** ** Discarding access logs *)

(** X4. The access log levels are nested: Verbose (and any level above
    Error) discards nothing, what Info discards Warn discards, what Warn
    discards Error discards; Error keeps exactly the statuses from 500 up.
    The route filter never discards anything: the decision is the same for
    every filter. *)
Theorem Discard_levels_nested (c : EchoContext) (filter : option (string -> bool)) :
  let discards l :=
    AccessLogDiscarder_Discard {| Level := l; IgnoreRoutes := filter |} c in
  discards AccessLogLevelVerbose = false
  /\ (forall l, (AccessLogLevelError < l)%N -> discards l = false)
  /\ (discards AccessLogLevelInfo = true -> discards AccessLogLevelWarn = true)
  /\ (discards AccessLogLevelWarn = true -> discards AccessLogLevelError = true)
  /\ (discards AccessLogLevelError = false <-> 500 <= ResponseStatus c)
  /\ (forall l, discards l = NewAccessLogDiscarder l None c).
Proof.
  cbv zeta. unfold NewAccessLogDiscarder, AccessLogDiscarder_Discard,
    AccessLogLevelVerbose, AccessLogLevelInfo, AccessLogLevelWarn,
    AccessLogLevelError, StatusNotFound. simpl.
  split_and!.
  - done.
  - intros l Hl.
    destruct (N.eqb_spec l 3); [lia |]. destruct (N.eqb_spec l 2); [lia |].
    destruct (N.eqb_spec l 1); [lia |]. done.
  - destruct (Z.eqb_spec (ResponseStatus c) 404), (Z.ltb_spec (ResponseStatus c) 400),
      (Z.leb_spec 300 (ResponseStatus c)); simpl; try done; lia.
  - destruct (Z.eqb_spec (ResponseStatus c) 404), (Z.ltb_spec (ResponseStatus c) 400),
      (Z.ltb_spec (ResponseStatus c) 500); simpl; try done; lia.
  - destruct (Z.ltb_spec (ResponseStatus c) 500); split; try done; lia.
  - intros l. by destruct (N.eqb l 3), (N.eqb l 2), (N.eqb l 1).
Qed.

(** ** Connection options *)

(** X5. Whatever the options, the transport [NewConn] builds never has a
    zero idle-connection limit, idle timeout or dial timeout: zeros are
    replaced by 5 connections, 30 seconds and 3 seconds, other values are
    kept; the client's timeout is the request timeout of the options.
    Applying the defaults twice changes nothing more. *)
Theorem NewConn_defaults `{Runtime} (opts : ConnOptions) :
  let t := NewConn_transport opts in
  MaxIdleConns t = (if maxIdleConns opts =? 0 then 5 else maxIdleConns opts)
  /\ IdleConnTimeout t = (if keepAlive opts =? 0 then 30 * Second else keepAlive opts)
  /\ Dialer_Timeout (DialContext t)
     = (if connTimeout opts =? 0 then 3 * Second else connTimeout opts)
  /\ MaxIdleConns t <> 0 /\ IdleConnTimeout t <> 0
  /\ Dialer_Timeout (DialContext t) <> 0
  /\ MaxConnsPerHost t = maxConnsPerHost opts
  /\ Timeout (NewConn opts) = requestTimeout opts
  /\ ConnOptions_sanitize (ConnOptions_sanitize opts) = ConnOptions_sanitize opts.
Proof.
  cbv zeta. unfold NewConn_transport, NewConn, ConnOptions_sanitize, Second. simpl.
  destruct (Z.eqb_spec (keepAlive opts) 0), (Z.eqb_spec (maxIdleConns opts) 0),
    (Z.eqb_spec (connTimeout opts) 0); simpl;
    split_and!; try done; try lia;
    repeat match goal with
    | |- context [?x =? 0] => destruct (Z.eqb_spec x 0); try lia
    end; done.
Qed.

Lemma buildable_paired (o : ConnOptions) :
  buildable o ->
  maxIdleConnsPerHost o = maxIdleConns o /\ tcpKeepAlive o = keepAlive o.
Proof. induction 1 as [| |o v _ [? ?]|o v _ [? ?]|o v _ [? ?]|o v _ [? ?]|o v _ [? ?]]; by simpl. Qed.

(** X6. For options built from the default or the zero value with the
    [With*] methods, the transport's per-host idle limit equals its idle
    limit and the dialer's TCP keep-alive equals the idle timeout, and
    neither is zero; when the connection timeout is not within 100 ms of
    the largest duration, the TLS handshake and expect-continue timeouts
    are the dial timeout plus 100 ms. *)
Theorem NewConn_paired_settings (opts : ConnOptions) :
  buildable opts ->
  let t := NewConn_transport opts in
  MaxIdleConnsPerHost t = MaxIdleConns t
  /\ Dialer_KeepAlive (DialContext t) = IdleConnTimeout t
  /\ MaxIdleConnsPerHost t <> 0
  /\ Dialer_KeepAlive (DialContext t) <> 0
  /\ (- 2 ^ 63 <= connTimeout opts < 2 ^ 63 - 100 * Millisecond ->
      TLSHandshakeTimeout t = Dialer_Timeout (DialContext t) + 100 * Millisecond
      /\ ExpectContinueTimeout t = TLSHandshakeTimeout t).
Proof.
  intros [Hm Hk]%buildable_paired. cbv zeta.
  unfold NewConn_transport, ConnOptions_sanitize, Second, Millisecond, wrap64. simpl.
  destruct (Z.eqb_spec (keepAlive opts) 0), (Z.eqb_spec (maxIdleConns opts) 0),
    (Z.eqb_spec (connTimeout opts) 0); simpl;
    split_and!; try done; try lia; intros Hr; split; try done;
    rewrite Z.mod_small; lia.
Qed.

(** ** Header keys and lists of pairs *)

Lemma same_key_true (key k v : string) :
  same_key key (k, v) = true <-> CanonicalMIMEHeaderKey k = CanonicalMIMEHeaderKey key.
Proof. unfold same_key. simpl. apply String.eqb_eq. Qed.

Lemma same_key_false (key k v : string) :
  same_key key (k, v) = false <-> CanonicalMIMEHeaderKey k <> CanonicalMIMEHeaderKey key.
Proof. unfold same_key. simpl. apply String.eqb_neq. Qed.

Lemma add_value_lookup (key k v : string) (m : HeaderMap) :
  default [] (add_value k v m !! CanonicalMIMEHeaderKey key)
  = default [] (m !! CanonicalMIMEHeaderKey key)
    ++ (if same_key key (k, v) then [v] else []).
Proof.
  destruct (same_key key (k, v)) eqn:E.
  - apply same_key_true in E. rewrite <- E. apply values_add_value.
  - apply same_key_false in E. rewrite add_value_other by done.
    by rewrite app_nil_r.
Qed.

Lemma set_value_lookup (key k v : string) (m : HeaderMap) :
  default [] (set_value k v m !! CanonicalMIMEHeaderKey key)
  = if same_key key (k, v) then [v] else default [] (m !! CanonicalMIMEHeaderKey key).
Proof.
  destruct (same_key key (k, v)) eqn:E.
  - apply same_key_true in E. rewrite <- E. apply values_set_value.
  - apply same_key_false in E. by rewrite set_value_other.
Qed.

Lemma add_values_lookup (hs : list (string * string)) (key : string) (m : HeaderMap) :
  default [] (fold_left (fun m kv => add_value kv.1 kv.2 m) hs m
              !! CanonicalMIMEHeaderKey key)
  = default [] (m !! CanonicalMIMEHeaderKey key) ++ values_for key hs.
Proof.
  revert m. induction hs as [|[k v] hs IH]; intros m.
  - by rewrite app_nil_r.
  - simpl fold_left. rewrite IH, add_value_lookup. unfold values_for. simpl.
    destruct (same_key key (k, v)); simpl.
    + by rewrite <- app_assoc.
    + by rewrite app_nil_r.
Qed.

Lemma set_values_lookup (hs : list (string * string)) (key : string) (m : HeaderMap) :
  default [] (fold_left (fun m kv => set_value kv.1 kv.2 m) hs m
              !! CanonicalMIMEHeaderKey key)
  = match last (values_for key hs) with
    | Some v => [v]
    | None => default [] (m !! CanonicalMIMEHeaderKey key)
    end.
Proof.
  revert m. induction hs as [|[k v] hs IH]; intros m; [done |].
  simpl fold_left. rewrite IH, set_value_lookup. unfold values_for. simpl.
  destruct (same_key key (k, v)); simpl; [| done].
  rewrite last_cons. by destruct (last _).
Qed.

Lemma Header_AddAll_allocated (hs : list (string * string)) (w : World) (l : nat) :
  allocated w (Some l) ->
  Header_AddAll (Some l) hs w
  = Ret tt (set_heap
              (<[l := fold_left (fun m kv => add_value kv.1 kv.2 m) hs
                        (contents w (Some l))]> (heap w)) w).
Proof.
  revert w. induction hs as [|[k v] hs IH]; intros w Hl.
  - simpl fold_left. rewrite list_insert_id by by apply allocated_lookup.
    by rewrite set_heap_same.
  - change (Header_AddAll (Some l) ((k, v) :: hs) w)
      with (match Header_Add (Some l) k v w with
            | Ret _ w' => Header_AddAll (Some l) hs w'
            | Panic msg w' => Panic msg w'
            end).
    rewrite Header_Add_allocated by done.
    rewrite IH by (simpl; by rewrite length_insert).
    rewrite contents_after_update by done. rewrite decide_True by done.
    simpl heap. by rewrite list_insert_insert_eq.
Qed.

(** X7. [WithHeader(k, v)] and [WithUniqueHeader(k, v)] act on the
    canonical form of the key: in the result, a key with the same canonical
    form as [k] (whatever its case) reads the receiver's values followed by
    [v], respectively [v] alone, and every other key reads what it read in
    the receiver. *)
Theorem With_header_by_canonical_key (B : StreamRequester) (w : World)
    (k v key : string) :
  allocated w (headers B) ->
  exists Ba wa Bu wu,
    StreamRequester_WithHeader B k v w = Ret Ba wa
    /\ Header_Values wa (headers Ba) key
       = (if same_key key (k, v) then Header_Values w (headers B) key ++ [v]
          else Header_Values w (headers B) key)
    /\ StreamRequester_WithUniqueHeader B k v w = Ret Bu wu
    /\ Header_Values wu (headers Bu) key
       = (if same_key key (k, v) then [v] else Header_Values w (headers B) key).
Proof.
  intros HB.
  destruct (apply_op_frame (OpWithHeader k v) B w HB)
    as (Ba & wa & Ea & _ & _ & _ & _ & Ca & _).
  destruct (apply_op_frame (OpWithUniqueHeader k v) B w HB)
    as (Bu & wu & Eu & _ & _ & _ & _ & Cu & _).
  exists Ba, wa, Bu, wu. split; [exact Ea |]. split; [| split; [exact Eu |]].
  - unfold Header_Values. rewrite Ca. simpl. rewrite add_value_lookup.
    destruct (same_key key (k, v)); [done | by rewrite app_nil_r].
  - unfold Header_Values. rewrite Cu. simpl. apply set_value_lookup.
Qed.

(** X8. [WithHeaders] replaces, pair by pair: in the result a key reads the
    single value of the last pair met whose key has its canonical form, and
    what it read in the receiver when no pair has; two keys of the Go map
    that differ only in case are one header, and the pair the loop meets
    last wins. *)
Theorem WithHeaders_last_pair_wins (B : StreamRequester) (w : World)
    (hs : list (string * string)) (key : string) :
  allocated w (headers B) ->
  exists B' w',
    StreamRequester_WithHeaders B hs w = Ret B' w'
    /\ Header_Values w' (headers B') key
       = match last (values_for key hs) with
         | Some v => [v]
         | None => Header_Values w (headers B) key
         end.
Proof.
  intros HB.
  destruct (apply_op_frame (OpWithHeaders hs) B w HB)
    as (B' & w' & E & _ & _ & _ & _ & C & _).
  exists B', w'. split; [exact E |].
  unfold Header_Values. rewrite C. simpl. apply set_values_lookup.
Qed.

(** X9. [ClientOptions.AddHeaders] appends: a key of the resulting options
    reads the values it had followed by the values of the pairs with its
    canonical form, in the order met.  Given options with a header map it
    writes that very map, so the caller's options see the additions; given
    options without one it makes a new map and leaves every existing map
    alone.  The other options are kept. *)
Theorem AddHeaders_appends (options : ClientOptions) (hs : list (string * string))
    (w : World) (key : string) :
  Headers options = None \/ allocated w (Headers options) ->
  exists o' w',
    ClientOptions_AddHeaders options hs w = Ret o' w'
    /\ Header_Values w' (Headers o') key
       = Header_Values w (Headers options) key ++ values_for key hs
    /\ (allocated w (Headers options) -> Headers o' = Headers options)
    /\ (Headers options = None ->
        Headers o' = Some (length (heap w))
        /\ forall h, allocated w h -> contents w' h = contents w h)
    /\ Conn o' = Conn options
    /\ MaxRequestTimeout o' = MaxRequestTimeout options
    /\ Middlewares o' = Middlewares options.
Proof.
  intros Hh. unfold ClientOptions_AddHeaders, mbind, Go_bind, mret, Go_ret.
  destruct (Headers options) as [l|] eqn:Hl.
  - destruct Hh as [Hh|Hh]; [done |].
    rewrite Header_AddAll_allocated by done.
    eexists _, _. split; [reflexivity |]. simpl Headers.
    split_and!; try done.
    unfold Header_Values.
    rewrite contents_after_update by done. rewrite decide_True by done.
    apply add_values_lookup.
  - unfold alloc.
    rewrite Header_AddAll_allocated by apply allocated_new.
    rewrite contents_of_new, insert_new.
    eexists _, _. split; [reflexivity |]. simpl Headers.
    split_and!; try done.
    + unfold Header_Values. rewrite contents_of_new.
      rewrite add_values_lookup. by rewrite lookup_empty.
    + intros _. split; [done |]. intros h Ha. by apply contents_after_alloc.
Qed.

(** ** Clients, their defaults and the builders they make *)

Lemma NewStreamRequest_no_options (c : Client) (w : World) :
  allocated w (dheaders c) ->
  Client_NewStreamRequest c [] w
  = Ret {| cli := c; headers := Some (length (heap w)); timeout := 0 |}
        (set_heap (heap w ++ [contents w (dheaders c)]) w).
Proof.
  intros Hc. unfold Client_NewStreamRequest, mbind, Go_bind.
  by rewrite Header_Clone_allocated.
Qed.

Lemma contents_other_update (w : World) (l : nat) (m : HeaderMap) (h : Header) :
  allocated w (Some l) -> h <> Some l ->
  contents (set_heap (<[l := m]> (heap w)) w) h = contents w h.
Proof.
  intros Hl Hne. rewrite contents_after_update by done. by rewrite decide_False.
Qed.

(** X10. A new builder without options starts with a copy of the client's
    default headers and no timeout.  The copy is the builder's own:
    [AddDefaultHeader] and [SetDefaultHeader] on the client afterwards
    change the defaults, append and replace respectively, and the builders
    made from then on, but not the builder already made. *)
Theorem builder_isolated_from_client_defaults (c : Client) (w : World)
    (k v key : string) :
  allocated w (dheaders c) ->
  exists r w1 wa ws r2 w2,
    Client_NewStreamRequest c [] w = Ret r w1
    /\ timeout r = 0
    /\ contents w1 (headers r) = contents w (dheaders c)
    /\ headers r <> dheaders c
    /\ Client_AddDefaultHeader c k v w1 = Ret c wa
    /\ Header_Values wa (dheaders c) k = Header_Values w (dheaders c) k ++ [v]
    /\ Header_Values wa (headers r) key = Header_Values w (dheaders c) key
    /\ Client_SetDefaultHeader c k v w1 = Ret c ws
    /\ Header_Values ws (dheaders c) k = [v]
    /\ Header_Values ws (headers r) key = Header_Values w (dheaders c) key
    /\ Client_NewStreamRequest c [] wa = Ret r2 w2
    /\ Header_Values w2 (headers r2) k = Header_Values w (dheaders c) k ++ [v].
Proof.
  intros Hc. destruct (dheaders c) as [l|] eqn:Hl; [| done].
  set (w1 := set_heap (heap w ++ [contents w (Some l)]) w).
  assert (allocated w1 (Some l)) as Hl1
    by (eapply allocated_grows; [| exact Hc]; simpl; rewrite length_app; lia).
  assert (contents w1 (Some l) = contents w (Some l)) as Cl1
    by by apply contents_after_alloc.
  assert (Some (length (heap w)) <> Some l) as Hne
    by (simpl in Hc; intros [= E]; lia).
  set (wa := set_heap (<[l := add_value k v (contents w1 (Some l))]> (heap w1)) w1).
  set (ws := set_heap (<[l := set_value k v (contents w1 (Some l))]> (heap w1)) w1).
  assert (allocated wa (dheaders c)) as Hla
    by (rewrite Hl; simpl; rewrite length_insert; exact Hl1).
  eexists _, w1, wa, ws, _, _.
  split.
  { rewrite NewStreamRequest_no_options by (by rewrite Hl). rewrite Hl. reflexivity. }
  simpl timeout. simpl headers.
  split; [done |]. split; [apply contents_of_new |]. split; [exact Hne |].
  unfold Client_AddDefaultHeader, Client_SetDefaultHeader, mbind, Go_bind, mret, Go_ret.
  rewrite Hl, Header_Add_allocated, Header_Set_allocated by done.
  fold wa. fold ws.
  split; [done |]. split.
  { unfold Header_Values. subst wa. rewrite contents_after_update by done.
    rewrite decide_True by done. rewrite Cl1. apply values_add_value. }
  split.
  { unfold Header_Values. subst wa. rewrite contents_other_update by done.
    subst w1. by rewrite contents_of_new. }
  split; [done |]. split.
  { unfold Header_Values. subst ws. rewrite contents_after_update by done.
    rewrite decide_True by done. apply values_set_value. }
  split.
  { unfold Header_Values. subst ws. rewrite contents_other_update by done.
    subst w1. by rewrite contents_of_new. }
  split; [by rewrite NewStreamRequest_no_options by exact Hla |].
  unfold Header_Values. simpl headers. rewrite contents_of_new, Hl.
  subst wa. rewrite contents_after_update by done.
  rewrite decide_True by done. rewrite Cl1. apply values_add_value.
Qed.

Lemma apply_options_app (a b : list RequestOption) (req : StreamRequester) (w : World) :
  apply_options (a ++ b) req w
  = match apply_options a req w with
    | Ret r w' => apply_options b r w'
    | Panic msg w' => Panic msg w'
    end.
Proof.
  revert req w. induction a as [|opt a IH]; intros req w; [done |].
  simpl. unfold mbind, Go_bind. destruct (apply_option opt req w); [apply IH | done].
Qed.

Lemma apply_option_header_op (opt : RequestOption) (op : HeaderOp)
    (req : StreamRequester) (w : World) (l : nat) :
  option_as_op opt = Some op -> headers req = Some l -> allocated w (Some l) ->
  apply_option opt req w
  = Ret req (set_heap (<[l := op_effect op (contents w (Some l))]> (heap w)) w).
Proof.
  intros Hop Hreq Hl.
  destruct opt as [t|hs|k v|k v|k v]; simpl in Hop; try done;
    injection Hop as <-; simpl; unfold mbind, Go_bind, mret, Go_ret; rewrite Hreq.
  - by rewrite Header_SetAll_allocated.
  - by rewrite Header_Add_allocated.
  - by rewrite Header_Set_allocated.
Qed.

(** A builder under construction: the clone of the defaults, then the
    options, all written to the builder's own new map. *)
Lemma NewStreamRequest_then_option (c : Client) (opts : list RequestOption)
    (opt : RequestOption) (w : World) :
  allocated w (dheaders c) ->
  exists r m,
    Client_NewStreamRequest c opts w = Ret r (set_heap (heap w ++ [m]) w)
    /\ headers r = Some (length (heap w)) /\ cli r = c
    /\ Client_NewStreamRequest c (opts ++ [opt]) w
       = match apply_option opt r (set_heap (heap w ++ [m]) w) with
         | Ret r' w' => Ret r' w'
         | Panic msg w' => Panic msg w'
         end.
Proof.
  intros Hc.
  destruct (NewStreamRequest_allocated c opts w Hc) as (r & m & E & Hr & Cr).
  exists r, m. split; [exact E |]. split; [exact Hr |]. split; [exact Cr |].
  unfold Client_NewStreamRequest, mbind, Go_bind in *.
  rewrite Header_Clone_allocated in * by done.
  rewrite apply_options_app, E. simpl. unfold mbind, Go_bind.
  by destruct (apply_option opt r _).
Qed.

(** X11. The request options [RequestHeader], [RequestUniqueHeader] and
    [RequestHeaders] give a builder the headers that the [With*] method of
    the same name gives when it is called on the builder made without that
    option; the option writes the map of the builder being made, the method
    a new one. *)
Theorem request_option_as_With (c : Client) (opts : list RequestOption)
    (opt : RequestOption) (op : HeaderOp) (w : World) :
  allocated w (dheaders c) ->
  option_as_op opt = Some op ->
  exists r w1 r' w1' B w2,
    Client_NewStreamRequest c opts w = Ret r w1
    /\ Client_NewStreamRequest c (opts ++ [opt]) w = Ret r' w1'
    /\ apply_op op r w1 = Ret B w2
    /\ contents w1' (headers r') = op_effect op (contents w1 (headers r))
    /\ contents w2 (headers B) = contents w1' (headers r')
    /\ timeout B = timeout r' /\ cli B = cli r'
    /\ headers r' = headers r /\ headers B <> headers r.
Proof.
  intros Hc Hop.
  destruct (NewStreamRequest_then_option c opts opt w Hc)
    as (r & m & E & Hr & Cr & E').
  set (w1 := set_heap (heap w ++ [m]) w) in *.
  assert (allocated w1 (Some (length (heap w)))) as Hl by apply allocated_new.
  rewrite (apply_option_header_op opt op r w1 _ Hop Hr Hl) in E'.
  assert (allocated w1 (headers r)) as HB by by rewrite Hr.
  destruct (apply_op_frame op r w1 HB) as (B & w2 & EB & HB' & _ & CB & TB & CC & _).
  eexists r, w1, r, _, B, w2.
  split; [exact E |]. split; [exact E' |]. split; [exact EB |].
  rewrite Hr. rewrite contents_after_update by done. rewrite decide_True by done.
  rewrite CC, Hr. split_and!; try done.
  rewrite HB'. subst w1. simpl. rewrite length_app. simpl. intros [= ?]. lia.
Qed.

(** X12. The request option [WithDefaultHeader(k, v)] sets [k] to [v] only
    when the builder being made has no value for [k] or an empty first
    value; a builder whose first value of [k] is not empty keeps all its
    values.  Other keys are not touched. *)
Theorem WithDefaultHeader_only_when_missing (c : Client) (opts : list RequestOption)
    (k v key : string) (w : World) :
  allocated w (dheaders c) ->
  exists r w1 r' w1',
    Client_NewStreamRequest c opts w = Ret r w1
    /\ Client_NewStreamRequest c (opts ++ [Client_WithDefaultHeader k v]) w = Ret r' w1'
    /\ Header_Values w1' (headers r') k
       = (match Header_Values w1 (headers r) k with
          | [] | "" :: _ => [v]
          | values => values
          end)
    /\ (same_key key (k, v) = false ->
        Header_Values w1' (headers r') key = Header_Values w1 (headers r) key).
Proof.
  intros Hc.
  destruct (NewStreamRequest_then_option c opts (Client_WithDefaultHeader k v) w Hc)
    as (r & m & E & Hr & Cr & E').
  set (w1 := set_heap (heap w ++ [m]) w) in *.
  assert (allocated w1 (Some (length (heap w)))) as Hl by apply allocated_new.
  exists r, w1. simpl in E'. unfold Header_Get in E'.
  destruct (Header_Values w1 (headers r) k) as [|first rest] eqn:HV.
  - simpl in E'. unfold mbind, Go_bind, mret, Go_ret in E'.
    rewrite Hr, Header_Set_allocated in E' by done.
    eexists r, _. split; [exact E |]. split; [exact E' |].
    unfold Header_Values. rewrite Hr, contents_after_update by done.
    rewrite decide_True by done. split; [apply values_set_value |].
    intros Hk. by rewrite set_value_lookup, Hk.
  - destruct (String.eqb_spec first "") as [->|Hne].
    + simpl in E'. unfold mbind, Go_bind, mret, Go_ret in E'.
      rewrite Hr, Header_Set_allocated in E' by done.
      eexists r, _. split; [exact E |]. split; [exact E' |].
      unfold Header_Values. rewrite Hr, contents_after_update by done.
      rewrite decide_True by done. split; [apply values_set_value |].
      intros Hk. by rewrite set_value_lookup, Hk.
    + simpl in E'. exists r, w1. split; [exact E |]. split; [exact E' |].
      rewrite HV. split; [| done].
      destruct first; [done | done].
Qed.

Lemma retimed_cases (c : HttpClient) (t : Z) (w : World) :
  exists c', retimed (Some c) t w = Ret (Some c') w
             /\ Transport c' = Transport c
             /\ (0 < t -> Timeout c' = t)
             /\ (t <= 0 -> c' = c)
             /\ (Timeout c = t -> c' = c).
Proof.
  unfold retimed. destruct (Z.ltb_spec 0 t) as [Ht|Ht].
  - destruct (Z.eqb_spec (Timeout c) t) as [Heq|Hne]; simpl.
    + exists c. split_and!; [done .. | lia | done].
    + eexists. split_and!; [done .. | lia | done].
  - exists c. split_and!; [done .. | lia | done | done].
Qed.

(** X13. The client [NewCustomClient] returns has a connection and a
    default timeout that is never 0: the options' [MaxRequestTimeout], or
    five seconds when that is 0.  When the default is positive the
    connection's timeout equals it; a supplied connection keeps its
    transport, and is kept whole when the default is negative; without a
    supplied connection the transport is the network's. *)
Theorem NewCustomClient_timeouts `{Runtime} (host0 : string) (options : ClientOptions)
    (w : World) :
  Headers options = None \/ allocated w (Headers options) ->
  exists c w' hc,
    NewCustomClient host0 options w = Ret c w'
    /\ conn c = Some hc
    /\ defaultTimeout c
       = (if MaxRequestTimeout options =? 0 then 5 * Second
          else MaxRequestTimeout options)
    /\ defaultTimeout c <> 0
    /\ (0 < defaultTimeout c -> Timeout hc = defaultTimeout c)
    /\ Transport hc = match Conn options with
                      | Some c0 => Transport c0
                      | None => network
                      end
    /\ (forall c0, Conn options = Some c0 -> defaultTimeout c < 0 -> hc = c0)
    /\ (Conn options = None -> Timeout hc = defaultTimeout c).
Proof.
  intros Hh. unfold NewCustomClient, ClientOptions_sanitize.
  change (0 * Second) with 0.
  set (t := if MaxRequestTimeout options =? 0 then 5 * Second
            else MaxRequestTimeout options).
  assert (t <> 0) as Ht.
  { subst t. destruct (Z.eqb_spec (MaxRequestTimeout options) 0); [done | done]. }
  set (c1 := match Conn options with
             | Some c => c
             | None => NewConn (ConnOptions_WithTimeout
                          (ConnOptions_WithRequestTimeout DefaultConnOptions t) t)
             end).
  assert (match Conn options with
          | Some c => Some c
          | None => Some (NewConn (ConnOptions_WithTimeout
                       (ConnOptions_WithRequestTimeout DefaultConnOptions t) t))
          end = Some c1) as Hc1 by (subst c1; by destruct (Conn options)).
  rewrite Hc1.
  assert (forall w0, exists hc,
    retimed (Some c1) t w0 = Ret (Some hc) w0
    /\ (0 < t -> Timeout hc = t)
    /\ Transport hc = match Conn options with
                      | Some c0 => Transport c0
                      | None => network
                      end
    /\ (forall c0, Conn options = Some c0 -> t < 0 -> hc = c0)
    /\ (Conn options = None -> Timeout hc = t)) as Hret.
  { intros w0.
    destruct (retimed_cases c1 t w0) as (hc & E & HT & Hpos & Hneg & Hsame).
    exists hc. split; [exact E |]. split; [exact Hpos |]. split.
    - rewrite HT. subst c1. by destruct (Conn options).
    - split.
      + intros c0 Hc0 Hlt. rewrite Hneg by lia. subst c1. by rewrite Hc0.
      + intros Hnone. rewrite Hsame; subst c1; by rewrite Hnone. }
  unfold mbind, Go_bind, mret, Go_ret, alloc.
  destruct (Headers options) as [l|] eqn:Hl.
  - destruct Hh as [Hh|Hh]; [done |].
    simpl Headers. rewrite Header_Add_allocated by done.
    simpl Conn. simpl MaxRequestTimeout.
    match goal with |- context [retimed (Some c1) t ?w0] =>
      destruct (Hret w0) as (hc & -> & H1 & H2 & H3 & H4) end.
    eexists _, _, hc. split; [reflexivity |]. simpl. by split_and!.
  - simpl Headers.
    rewrite Header_Add_allocated by (simpl; rewrite length_app; simpl; lia).
    simpl Conn. simpl MaxRequestTimeout.
    match goal with |- context [retimed (Some c1) t ?w0] =>
      destruct (Hret w0) as (hc & -> & H1 & H2 & H3 & H4) end.
    eexists _, _, hc. split; [reflexivity |]. simpl. by split_and!.
Qed.

(** X14. [SetTimeout(t)] records [t] as the default and leaves the world,
    the host, the default headers and the middlewares alone.  For a
    positive [t] the connection is replaced by one with timeout [t] and the
    same transport (and a client without connection panics); for [t] zero
    or negative the connection, its timeout included, stays as it was. *)
Theorem SetTimeout_connection (c : Client) (t : Z) (w : World) :
  (t <= 0 ->
   Client_SetTimeout c t w
   = Ret {| host := host c; conn := conn c; defaultTimeout := t;
            dheaders := dheaders c; middlewares := middlewares c |} w)
  /\ (0 < t -> forall hc, conn c = Some hc ->
      exists hc',
        Client_SetTimeout c t w
        = Ret {| host := host c; conn := Some hc'; defaultTimeout := t;
                 dheaders := dheaders c; middlewares := middlewares c |} w
        /\ Timeout hc' = t /\ Transport hc' = Transport hc)
  /\ (0 < t -> conn c = None -> value_of (Client_SetTimeout c t w) = None).
Proof.
  unfold Client_SetTimeout, retimed, mbind, Go_bind, mret, Go_ret.
  split_and!.
  - intros Ht. destruct (Z.ltb_spec 0 t); [lia | done].
  - intros Ht hc Hc. rewrite Hc. destruct (Z.ltb_spec 0 t); [| lia].
    destruct (Z.eqb_spec (Timeout hc) t); simpl; eexists; by split_and!.
  - intros Ht Hc. rewrite Hc. by destruct (Z.ltb_spec 0 t); [| lia].
Qed.

(** X15. [Client.Clone] copies the default headers into a new map and
    keeps host, connection, default timeout and middlewares: after it,
    [AddDefaultHeader] on the clone leaves the original's defaults as they
    were, and [AddDefaultHeader] on the original leaves the clone's. *)
Theorem Client_Clone_independent (c : Client) (w : World) (k v : string) :
  allocated w (dheaders c) ->
  exists c2 w1 wa wb,
    Client_Clone c w = Ret c2 w1
    /\ dheaders c2 <> dheaders c
    /\ contents w1 (dheaders c2) = contents w (dheaders c)
    /\ host c2 = host c /\ conn c2 = conn c
    /\ defaultTimeout c2 = defaultTimeout c /\ middlewares c2 = middlewares c
    /\ Client_AddDefaultHeader c2 k v w1 = Ret c2 wa
    /\ contents wa (dheaders c) = contents w (dheaders c)
    /\ contents wa (dheaders c2) = add_value k v (contents w (dheaders c))
    /\ Client_AddDefaultHeader c k v w1 = Ret c wb
    /\ contents wb (dheaders c2) = contents w (dheaders c)
    /\ contents wb (dheaders c) = add_value k v (contents w (dheaders c)).
Proof.
  intros Hc. destruct (dheaders c) as [l|] eqn:Hl; [| done].
  set (w1 := set_heap (heap w ++ [contents w (Some l)]) w).
  assert (allocated w1 (Some l)) as Hl1
    by (eapply allocated_grows; [| exact Hc]; simpl; rewrite length_app; lia).
  assert (allocated w1 (Some (length (heap w)))) as Hn by apply allocated_new.
  assert (contents w1 (Some l) = contents w (Some l)) as Cl1
    by by apply contents_after_alloc.
  assert (contents w1 (Some (length (heap w))) = contents w (Some l)) as Cn
    by apply contents_of_new.
  assert (Some (length (heap w)) <> Some l) as Hne
    by (simpl in Hc; intros [= E]; lia).
  unfold Client_Clone, Client_AddDefaultHeader, mbind, Go_bind, mret, Go_ret.
  rewrite Hl, Header_Clone_allocated by done. fold w1.
  eexists _, w1, _, _. split; [reflexivity |].
  cbn [dheaders host conn defaultTimeout middlewares].
  rewrite !Header_Add_allocated by done.
  assert (Some l <> Some (length (heap w))) as Hne' by congruence.
  split_and!; try done;
    first [ exact Cn
          | by rewrite contents_other_update, ?Cl1, ?Cn
          | rewrite contents_after_update by done; rewrite decide_True by done;
            by rewrite ?Cn, ?Cl1 ].
Qed.

(** ** Requests that are not sent *)

(** X16. A builder whose client has no connection, the zero value among
    them, sends nothing: [Prepare] and both [Do] return the error "request
    must be created from a Client" ([Do] wraps it, with status 0 and no
    body) without building a request, running a middleware or calling a
    transport. *)
Theorem request_without_client `{Runtime} (req : StreamRequester)
    (ctx parent : option Context) (method endpoint : string) (body : option string)
    (data : string) (w : World) :
  conn (cli req) = None ->
  let err := errors_New "request must be created from a Client" in
  StreamRequester_Prepare req ctx method endpoint body w = Ret (None, Some err) w
  /\ StreamRequester_Do req ctx method endpoint body w
     = Ret (0, None, Some (Errorf_w "error creating request; " err)) w
  /\ exists w',
       Requester_Do {| core := req |} parent method endpoint data w
       = Ret (0, None, Some (Errorf_w "error creating request; " err)) w'
       /\ heap w' = heap w /\ wire w' = wire w /\ closed w' = closed w.
Proof.
  intros Hc err.
  assert (forall ctx body, StreamRequester_Prepare req ctx method endpoint body w
                           = Ret (None, Some err) w) as HP.
  { intros ctx0 body0. unfold StreamRequester_Prepare, StreamRequester_validate.
    by rewrite Hc. }
  split; [apply HP |]. split.
  - unfold StreamRequester_Do, mbind, Go_bind. by rewrite HP.
  - unfold Requester_Do, StreamRequester_Do, StreamRequester_Context,
      context_WithTimeout, mbind, Go_bind, mret, Go_ret. cbn [core].
    destruct (0 <? timeout req); cbv beta iota zeta; rewrite HP; simpl; by eexists.
Qed.

(** X17. When [http.NewRequestWithContext] rejects the context, the method
    or the URL, [Prepare] returns its error wrapped once and [Do] wrapped
    twice with the same words, so the message of [Do] starts with "error
    creating request; error creating request; "; no header map is made, no
    middleware runs and nothing is sent. *)
Theorem request_construction_failure `{Runtime} (req : StreamRequester)
    (ctx : option Context) (method endpoint : string) (body : option string)
    (w : World) (c : HttpClient) (e : GoError) :
  conn (cli req) = Some c ->
  request_error ctx method (Client_FullURL (cli req) endpoint) = Some e ->
  StreamRequester_Prepare req ctx method endpoint body w
    = Ret (None, Some (Errorf_w "error creating request; " e)) w
  /\ exists e2,
       StreamRequester_Do req ctx method endpoint body w = Ret (0, None, Some e2) w
       /\ Unwrap e2 = Some (Errorf_w "error creating request; " e)
       /\ Error e2 = "error creating request; error creating request; " +:+ Error e.
Proof.
  intros Hc He.
  assert (StreamRequester_Prepare req ctx method endpoint body w
          = Ret (None, Some (Errorf_w "error creating request; " e)) w) as HP.
  { unfold StreamRequester_Prepare, StreamRequester_validate,
      http_NewRequestWithContext, mbind, Go_bind.
    by rewrite Hc, He. }
  split; [exact HP |].
  eexists. unfold StreamRequester_Do, mbind, Go_bind. rewrite HP.
  split; [reflexivity |]. split; reflexivity.
Qed.

(** X18. A nil context stops [Prepare], of the streaming and of the
    buffered builder, with the error "net/http: nil Context"; the buffered
    [Do] replaces it by [Background] first and behaves as if given
    [Background]. *)
Theorem nil_context `{Runtime} (req : Requester) (method endpoint data : string)
    (w : World) (c : HttpClient) :
  conn (cli (core req)) = Some c ->
  request_error None method (Client_FullURL (cli (core req)) endpoint) = None ->
  Requester_Prepare req None method endpoint data w
    = Ret (None, Some (Errorf_w "error creating request; "
                         (errors_New "net/http: nil Context"))) w
  /\ StreamRequester_Prepare (core req) None method endpoint (Some data) w
     = Requester_Prepare req None method endpoint data w
  /\ Requester_Do req None method endpoint data w
     = Requester_Do req (Some Background) method endpoint data w.
Proof.
  intros Hc He. split; [| by split].
  unfold Requester_Prepare, StreamRequester_Prepare, StreamRequester_validate,
    http_NewRequestWithContext, mbind, Go_bind.
  by rewrite Hc, He.
Qed.

(** ** Requests that are sent *)

Lemma Do_result_shape `{Runtime} (req : StreamRequester) (ctx : option Context)
    (method endpoint : string) (body : option string) (w w' : World)
    (status : Z) (payload : option ReadCloser) (err : option GoError) :
  StreamRequester_Do req ctx method endpoint body w = Ret (status, payload, err) w' ->
  (err = None /\ is_Some payload) \/ (status = 0 /\ payload = None /\ is_Some err).
Proof.
  unfold StreamRequester_Do, mbind, Go_bind, mret, Go_ret.
  destruct (StreamRequester_Prepare req ctx method endpoint body w)
    as [[hreq [e|]] w1|]; [| | done].
  - intros [= <- <- <- <-]. right. by split_and!.
  - destruct (conn (cli req)) as [c|]; [| done].
    unfold HttpClient_Do. destruct hreq as [r|]; [| done].
    destruct (Transport c _ _) as [res|e]; intros [= <- <- <- <-].
    + left. by split.
    + right. by split_and!.
Qed.

(** X19. [Do] of the streaming builder returns a body exactly when it
    returns no error, and status 0 with every error; the buffered [Do]
    likewise never returns bytes together with an error. *)
Theorem Do_body_or_error `{Runtime} (req : StreamRequester) (ctx : option Context)
    (method endpoint : string) (body : option string) (data : string) (w : World) :
  match StreamRequester_Do req ctx method endpoint body w with
  | Ret (status, payload, err) _ =>
      (err = None /\ is_Some payload) \/ (status = 0 /\ payload = None /\ is_Some err)
  | Panic _ _ => True
  end
  /\ match Requester_Do {| core := req |} ctx method endpoint data w with
     | Ret (status, response, err) _ =>
         (err = None /\ is_Some response) \/ (response = None /\ is_Some err)
     | Panic _ _ => True
     end.
Proof.
  split.
  - destruct (StreamRequester_Do req ctx method endpoint body w)
      as [[[status payload] err] w'|] eqn:E; [| done].
    by apply Do_result_shape in E.
  - unfold Requester_Do, mbind, Go_bind, mret, Go_ret. cbn [core].
    destruct (StreamRequester_Context req ctx w) as [[ctx' cancel] w0|]; [| done].
    destruct (StreamRequester_Do req (Some ctx') method endpoint (Some data) w0)
      as [[[status payload] [e|]] w1|]; [| | done].
    + destruct cancel; simpl; right; by split.
    + destruct payload as [p|]; [| done]. unfold io_ReadAll.
      destruct (read_err p), cancel; simpl; first [left; by split | right; by split].
Qed.

(** X20. Whatever the streaming [Do] returns, the buffered [Do] releases
    what it acquired before it returns: it closes the response body once
    when there is one, and when the builder has a positive timeout it
    cancels the context it derived, once; without timeout it cancels
    nothing.  It writes no header map and sends nothing more itself. *)
Theorem Requester_Do_releases `{Runtime} (req : Requester) (parent : option Context)
    (method endpoint data : string) (w w2 : World)
    (status : Z) (payload : option ReadCloser) (err : option GoError) :
  let ctx := default Background parent in
  let ctx' := if 0 <? timeout (core req)
              then WithDeadline ctx (clock w + timeout (core req)) else ctx in
  StreamRequester_Do (core req) (Some ctx') method endpoint (Some data) w
    = Ret (status, payload, err) w2 ->
  exists r w',
    Requester_Do req parent method endpoint data w = Ret r w'
    /\ heap w' = heap w2 /\ wire w' = wire w2
    /\ closed w' = (match err with Some _ => closed w2 | None => S (closed w2) end)
    /\ cancelled w'
       = cancelled w2 ++ (if 0 <? timeout (core req) then [ctx'] else []).
Proof.
  intros ctx ctx' E.
  pose proof (Do_result_shape _ _ _ _ _ _ _ _ _ _ E) as Hshape.
  subst ctx ctx'.
  unfold Requester_Do, StreamRequester_Context, context_WithTimeout,
    mbind, Go_bind, mret, Go_ret.
  destruct parent as [p0|]; simpl default in *;
    destruct (0 <? timeout (core req)); cbv beta iota zeta; rewrite E;
    destruct Hshape as [[-> [p ->]]|(_ & -> & [e ->])]; unfold io_ReadAll;
    try destruct (read_err p); simpl;
    eexists _, _; (split; [reflexivity |]); simpl;
    by rewrite ?app_nil_r.
Qed.








(** ** The further statements at the sample inputs *)

Example Atoi_value_samples :
  Atoi_value "42" = 42 /\ Atoi_value "-7" = -7 /\ Atoi_value "+100" = 100
  /\ Atoi_value "" = 0 /\ Atoi_value "4x" = 0 /\ Atoi_value "-" = 0
  /\ Atoi_value "1_000" = 0
  /\ Atoi_value "9223372036854775808" = MaxInt
  /\ Atoi_value "-9223372036854775809" = MinInt.
Proof. by vm_compute. Qed.

Lemma NewConn_paired_settings_witness :
  buildable (ConnOptions_WithKeepAlive
               (ConnOptions_WithMaxIdleConns DefaultConnOptions 20) 0)
  /\ MaxIdleConnsPerHost
       (NewConn_transport (ConnOptions_WithKeepAlive
                             (ConnOptions_WithMaxIdleConns DefaultConnOptions 20) 0))
     = 20
  /\ Dialer_KeepAlive
       (DialContext
          (NewConn_transport (ConnOptions_WithKeepAlive
                                (ConnOptions_WithMaxIdleConns DefaultConnOptions 20) 0)))
     = 30 * Second.
Proof.
  assert (buildable (ConnOptions_WithKeepAlive
                       (ConnOptions_WithMaxIdleConns DefaultConnOptions 20) 0)) as Hb
    by (repeat constructor).
  split; [exact Hb |].
  destruct (NewConn_paired_settings _ Hb) as (Hm & Hk & _).
  split; [exact Hm | exact Hk].
Defined.

Lemma With_header_by_canonical_key_witness :
  allocated sample_world (headers sample_builder)
  /\ exists Ba wa,
       StreamRequester_WithHeader sample_builder "user-AGENT" "extra" sample_world
         = Ret Ba wa
       /\ Header_Values wa (headers Ba) "User-Agent"
          = ["go-webservice/v0/system/component"; "extra"].
Proof.
  assert (allocated sample_world (headers sample_builder)) as HB
    by (vm_compute; lia).
  split; [exact HB |].
  destruct (With_header_by_canonical_key sample_builder sample_world
              "user-AGENT" "extra" "User-Agent" HB)
    as (Ba & wa & _ & _ & Ea & Va & _).
  exists Ba, wa. split; [exact Ea | exact Va].
Defined.

Lemma WithHeaders_last_pair_wins_witness :
  allocated sample_world (headers sample_builder)
  /\ exists B' w',
       StreamRequester_WithHeaders sample_builder mixed_case_headers sample_world
         = Ret B' w'
       /\ Header_Values w' (headers B') "X-Tags" = ["b"].
Proof.
  assert (allocated sample_world (headers sample_builder)) as HB
    by (vm_compute; lia).
  split; [exact HB |].
  destruct (WithHeaders_last_pair_wins sample_builder sample_world
              mixed_case_headers "X-Tags" HB) as (B' & w' & E & V).
  exists B', w'. split; [exact E | exact V].
Defined.

Lemma AddHeaders_appends_witness :
  allocated caller_world (Headers caller_options)
  /\ exists o' w',
       ClientOptions_AddHeaders caller_options
         [("user-agent", "probe"); ("dh", "z")] caller_world = Ret o' w'
       /\ Headers o' = Headers caller_options
       /\ Header_Values w' (Headers o') "User-Agent" = ["curl/8.0"; "probe"].
Proof.
  assert (allocated caller_world (Headers caller_options)) as Ha by (simpl; lia).
  split; [exact Ha |].
  destruct (AddHeaders_appends caller_options [("user-agent", "probe"); ("dh", "z")]
              caller_world "User-Agent" (or_intror Ha))
    as (o' & w' & E & V & Hsame & _).
  exists o', w'. split; [exact E |]. split; [exact (Hsame Ha) | exact V].
Defined.

Lemma builder_isolated_from_client_defaults_witness :
  allocated sample_world (dheaders sample_client)
  /\ exists r w1 wa,
       Client_NewStreamRequest sample_client [] sample_world = Ret r w1
       /\ Client_AddDefaultHeader sample_client "x-auth-token" "god" w1
          = Ret sample_client wa
       /\ Header_Values wa (dheaders sample_client) "x-auth-token" = ["god"]
       /\ Header_Values wa (headers r) "x-auth-token" = [].
Proof.
  assert (allocated sample_world (dheaders sample_client)) as Hc
    by (vm_compute; lia).
  split; [exact Hc |].
  destruct (builder_isolated_from_client_defaults sample_client sample_world
              "x-auth-token" "god" "x-auth-token" Hc)
    as (r & w1 & wa & ws & r2 & w2 & E & _ & _ & _ & Ea & Va & Vr & _).
  exists r, w1, wa. split; [exact E |]. split; [exact Ea |].
  split; [exact Va | exact Vr].
Defined.

Lemma request_option_as_With_witness :
  allocated sample_world (dheaders sample_client)
  /\ option_as_op (Client_RequestHeader "h1" "v2") = Some (OpWithHeader "h1" "v2")
  /\ exists r' w1',
       Client_NewStreamRequest sample_client
         ([Client_RequestHeader "h1" "v1"] ++ [Client_RequestHeader "h1" "v2"])
         sample_world = Ret r' w1'
       /\ exists r w1 B w2,
            Client_NewStreamRequest sample_client [Client_RequestHeader "h1" "v1"]
              sample_world = Ret r w1
            /\ StreamRequester_WithHeader r "h1" "v2" w1 = Ret B w2
            /\ contents w2 (headers B) = contents w1' (headers r').
Proof.
  assert (allocated sample_world (dheaders sample_client)) as Hc
    by (vm_compute; lia).
  split; [exact Hc |]. split; [reflexivity |].
  destruct (request_option_as_With sample_client [Client_RequestHeader "h1" "v1"]
              (Client_RequestHeader "h1" "v2") (OpWithHeader "h1" "v2")
              sample_world Hc eq_refl)
    as (r & w1 & r' & w1' & B & w2 & E & E' & EB & _ & C & _).
  exists r', w1'. split; [exact E' |].
  exists r, w1, B, w2. split; [exact E |]. split; [exact EB | exact C].
Defined.

Lemma WithDefaultHeader_only_when_missing_witness :
  allocated sample_world (dheaders sample_client)
  /\ exists r' w1',
       Client_NewStreamRequest sample_client
         ([] ++ [Client_WithDefaultHeader "user-agent" "mine"]) sample_world
         = Ret r' w1'
       /\ Header_Values w1' (headers r') "user-agent"
          = ["go-webservice/v0/system/component"].
Proof.
  assert (allocated sample_world (dheaders sample_client)) as Hc
    by (vm_compute; lia).
  split; [exact Hc |].
  destruct (WithDefaultHeader_only_when_missing sample_client []
              "user-agent" "mine" "Accept" sample_world Hc)
    as (r & w1 & r' & w1' & E & E' & V & _).
  exists r', w1'. split; [exact E' |].
  rewrite NewStreamRequest_no_options in E by exact Hc.
  injection E as <- <-. rewrite V. vm_compute. reflexivity.
Defined.

Lemma NewCustomClient_timeouts_witness :
  allocated caller_world (Headers caller_options)
  /\ exists c w' hc,
       @NewCustomClient sample_runtime sample_host caller_options caller_world
         = Ret c w'
       /\ conn c = Some hc
       /\ Timeout hc = 10 * Second.
Proof.
  assert (allocated caller_world (Headers caller_options)) as Ha by (simpl; lia).
  split; [exact Ha |].
  destruct (@NewCustomClient_timeouts sample_runtime sample_host caller_options
              caller_world (or_intror Ha))
    as (c & w' & hc & E & Hc & Hd & _ & Hpos & _).
  exists c, w', hc. split; [exact E |]. split; [exact Hc |].
  rewrite Hpos; rewrite Hd; reflexivity.
Defined.

Lemma Client_Clone_independent_witness :
  allocated sample_world (dheaders sample_client)
  /\ exists c2 w1 wa,
       Client_Clone sample_client sample_world = Ret c2 w1
       /\ Client_AddDefaultHeader c2 "x-auth-token" "god" w1 = Ret c2 wa
       /\ contents wa (dheaders sample_client)
          = contents sample_world (dheaders sample_client).
Proof.
  assert (allocated sample_world (dheaders sample_client)) as Hc
    by (vm_compute; lia).
  split; [exact Hc |].
  destruct (Client_Clone_independent sample_client sample_world "x-auth-token" "god" Hc)
    as (c2 & w1 & wa & wb & E & _ & _ & _ & _ & _ & _ & Ea & Ca & _).
  exists c2, w1, wa. split; [exact E |]. split; [exact Ea | exact Ca].
Defined.

Lemma request_without_client_witness :
  conn (cli zero_StreamRequester) = None
  /\ @StreamRequester_Do sample_runtime zero_StreamRequester (Some TODO) "GET" "/" None
       empty_world
     = Ret (0, None,
            Some (Errorf_w "error creating request; "
                    (errors_New "request must be created from a Client")))
           empty_world.
Proof.
  split; [reflexivity |].
  exact (proj1 (proj2 (@request_without_client sample_runtime zero_StreamRequester
                         (Some TODO) None "GET" "/" None "" empty_world eq_refl))).
Defined.

Lemma request_construction_failure_witness :
  conn (cli sample_builder) = Some sample_conn
  /\ @request_error picky_runtime (Some TODO) "GE T"
       (Client_FullURL (cli sample_builder) "/") = Some (errors_New "net/http: invalid method")
  /\ exists e2,
       @StreamRequester_Do picky_runtime sample_builder (Some TODO) "GE T" "/" None
         sample_world = Ret (0, None, Some e2) sample_world
       /\ Error e2
          = "error creating request; error creating request; net/http: invalid method".
Proof.
  assert (conn (cli sample_builder) = Some sample_conn) as Hc
    by (vm_compute; reflexivity).
  split; [exact Hc |]. split; [reflexivity |].
  destruct (@request_construction_failure picky_runtime sample_builder (Some TODO)
              "GE T" "/" None sample_world sample_conn
              (errors_New "net/http: invalid method") Hc eq_refl)
    as (_ & e2 & E & _ & Hmsg).
  exists e2. split; [exact E | exact Hmsg].
Defined.

Lemma nil_context_witness :
  conn (cli (core timed_requester)) = Some sample_conn
  /\ @request_error sample_runtime None "GET"
       (Client_FullURL (cli (core timed_requester)) "/") = None
  /\ @Requester_Prepare sample_runtime timed_requester None "GET" "/" "" sample_world
     = Ret (None, Some (Errorf_w "error creating request; "
                          (errors_New "net/http: nil Context"))) sample_world.
Proof.
  assert (conn (cli (core timed_requester)) = Some sample_conn) as Hc
    by (vm_compute; reflexivity).
  split; [exact Hc |]. split; [reflexivity |].
  exact (proj1 (@nil_context sample_runtime timed_requester "GET" "/" "" sample_world
                  sample_conn Hc eq_refl)).
Defined.

Lemma Requester_Do_releases_witness :
  exists w2,
    @StreamRequester_Do sample_runtime (core timed_requester)
      (Some (WithDeadline TODO 5000000100)) "GET" "/" (Some "") world_at_100
    = Ret (200, Some (RespBody sample_response), None) w2
    /\ exists r w',
         @Requester_Do sample_runtime timed_requester (Some TODO) "GET" "/" ""
           world_at_100 = Ret r w'
         /\ closed w' = S (closed w2)
         /\ cancelled w' = cancelled w2 ++ [WithDeadline TODO 5000000100].
Proof.
  exists (world_of (@StreamRequester_Do sample_runtime (core timed_requester)
                      (Some (WithDeadline TODO 5000000100)) "GET" "/" (Some "")
                      world_at_100)).
  assert (@StreamRequester_Do sample_runtime (core timed_requester)
            (Some (WithDeadline TODO 5000000100)) "GET" "/" (Some "") world_at_100
          = Ret (200, Some (RespBody sample_response), None)
                (world_of (@StreamRequester_Do sample_runtime (core timed_requester)
                             (Some (WithDeadline TODO 5000000100)) "GET" "/" (Some "")
                             world_at_100))) as E
    by (vm_compute; reflexivity).
  split; [exact E |].
  destruct (@Requester_Do_releases sample_runtime timed_requester (Some TODO)
              "GET" "/" "" world_at_100 _ 200 _ None E)
    as (r & w' & E' & _ & _ & Hclosed & Hcancel).
  exists r, w'. split; [exact E' |]. split; [exact Hclosed | exact Hcancel].
Defined.



